(** * Admin meal controller: list, create, update and delete handlers

    A shallow embedding of [controllers/adminMealController.ts] (the four
    Express handlers [getAllMeals], [createMeal], [updateMeal] and
    [deleteMeal]) together with the part of the JavaScript runtime the
    handlers rely on: truthiness, [=== undefined], the relational comparison
    [v < 0], property reads, and [try]/[catch].

    The handlers are written in a small state-and-exception monad over a
    "world" that holds the document store, the log of store calls made so
    far, and the responses sent on [res]. *)

From Stdlib Require Import ZArith Ascii String List Bool.
From stdpp Require Import base option strings pretty list gmap fin_maps.
Import ListNotations.

Set Warnings "-register-all".

Local Open Scope string_scope.
Local Open Scope list_scope.

(* ===================================================================== *)
(** ** JavaScript values *)
(* ===================================================================== *)

Module JS.

(** A JavaScript number: not-a-number, an infinity, or a finite double,
    written as [m * 2^e].  The handlers never compute with numbers; they
    only test the sign and truthiness, for which this view is exact (the
    sign of the zero is not kept: [-0 < 0] is false and [-0] is falsy,
    just as for [+0]). *)
Inductive number :=
| NaN
| Infinity (negative : bool)
| Finite (m e : Z).

Definition of_Z (z : Z) : number := Finite z 0.

(** Values as they reach the handlers: what [JSON.parse] builds for a
    request body, plus [undefined] for a property that is not there.
    Objects keep their own properties in insertion order; a key occurs
    once, and [own] reads the first match. *)
Inductive value :=
| VUndefined
| VNull
| VBool (b : bool)
| VNum (n : number)
| VStr (s : string)
| VArr (elems : list value)
| VObj (props : list (string * value)).

Definition num (z : Z) : value := VNum (of_Z z).

(** Thrown values.  JavaScript can throw, and a promise can reject with,
    any value at all: [catch (err: unknown)].  An Error instance appears
    here as the object of the properties that can be read off it, [name]
    and [message] among them. *)
Definition error : Type := value.

Inductive result (A : Type) :=
| Ok (a : A)
| Throw (e : error).
Arguments Ok {A} a.
Arguments Throw {A} e.

Definition TypeError (msg : string) : error :=
  VObj [("name", VStr "TypeError"); ("message", VStr msg)].

Definition rbind {A B} (r : result A) (k : A -> result B) : result B :=
  match r with
  | Ok a => k a
  | Throw e => Throw e
  end.

(** The two number/string conversions of the runtime that the handlers
    reach only through coercion ([StringToNumber] is the
    StringNumericLiteral grammar followed by rounding to a double,
    [NumberToString] is Number::toString).  They are left as parameters:
    every theorem below holds whatever they compute. *)
Record Runtime := {
  StringToNumber : string -> number;
  NumberToString : number -> string
}.

Fixpoint own (k : string) (props : list (string * value)) : option value :=
  match props with
  | [] => None
  | (k', v) :: rest => if String.eqb k k' then Some v else own k rest
  end.

(** [o.k] for one of the keys the handlers read ([name], [calories],
    [search], [id], ...): none of them is defined on a built-in
    prototype, so the read is the own property or [undefined]. *)
Definition prop (k : string) (props : list (string * value)) : value :=
  match own k props with
  | Some v => v
  | None => VUndefined
  end.

(** [v.k] on an arbitrary value, for the same keys: reading a property of
    [undefined] or [null] throws a TypeError; primitives and arrays have
    no such property. *)
Definition get_prop (v : value) (k : string) : result value :=
  match v with
  | VUndefined | VNull =>
      Throw (TypeError "Cannot read properties of undefined or null")
  | VObj props => Ok (prop k props)
  | VBool _ | VNum _ | VStr _ | VArr _ => Ok VUndefined
  end.

Definition is_undefined (v : value) : bool :=
  match v with
  | VUndefined => true
  | _ => false
  end.

Definition number_truthy (n : number) : bool :=
  match n with
  | NaN => false
  | Infinity _ => true
  | Finite m _ => negb (m =? 0)%Z
  end.

Definition ToBoolean (v : value) : bool :=
  match v with
  | VUndefined | VNull => false
  | VBool b => b
  | VNum n => number_truthy n
  | VStr s => negb (String.eqb s "")
  | VArr _ | VObj _ => true
  end.

(** Number::lessThan(n, +0), with [undefined] (a NaN operand) read as
    false, as the [<] operator does. *)
Definition number_lt_zero (n : number) : bool :=
  match n with
  | NaN => false
  | Infinity negative => negative
  | Finite m _ => (m <? 0)%Z
  end.

Section Coercions.
Variable rt : Runtime.

(** ToString.  A parsed array has no own [toString] or [join], so it
    goes through Array.prototype.join: elements separated by commas,
    [undefined] and [null] printed as the empty string.  A parsed
    object prints as [[object Object]] unless it has an own property
    called [toString]: that property cannot be a function, the
    inherited [valueOf] returns the object itself, and the conversion
    throws. *)
Fixpoint ToString (v : value) : result string :=
  match v with
  | VUndefined => Ok "undefined"
  | VNull => Ok "null"
  | VBool true => Ok "true"
  | VBool false => Ok "false"
  | VNum n => Ok (NumberToString rt n)
  | VStr s => Ok s
  | VArr elems =>
      (fix join (l : list value) : result string :=
         match l with
         | [] => Ok ""
         | x :: rest =>
             rbind (match x with
                    | VUndefined | VNull => Ok ""
                    | _ => ToString x
                    end)
               (fun s =>
                  match rest with
                  | [] => Ok s
                  | _ :: _ => rbind (join rest) (fun t => Ok (s +:+ "," +:+ t))
                  end)
         end) elems
  | VObj props =>
      match own "toString" props with
      | Some _ => Throw (TypeError "Cannot convert object to primitive value")
      | None => Ok "[object Object]"
      end
  end.

(** ToNumber, after ToPrimitive with hint Number for arrays and objects
    (their inherited [valueOf] returns the object, so the string form
    is what gets converted). *)
Definition ToNumber (v : value) : result number :=
  match v with
  | VUndefined => Ok NaN
  | VNull => Ok (of_Z 0)
  | VBool true => Ok (of_Z 1)
  | VBool false => Ok (of_Z 0)
  | VNum n => Ok n
  | VStr s => Ok (StringToNumber rt s)
  | VArr _ | VObj _ => rbind (ToString v) (fun s => Ok (StringToNumber rt s))
  end.

(** The expression [v < 0]. *)
Definition lt_zero (v : value) : result bool :=
  rbind (ToNumber v) (fun n => Ok (number_lt_zero n)).

(** The expression [v >= 0]: false when [v] converts to NaN. *)
Definition ge_zero (v : value) : result bool :=
  rbind (ToNumber v)
    (fun n => Ok (match n with NaN => false | _ => negb (number_lt_zero n) end)).

End Coercions.

End JS.
Import JS.


(* ===================================================================== *)
(** ** The Meal model: the document store behind the handlers *)
(* ===================================================================== *)

Module Meal.

(** The four operations the controller calls on the [Meal] model, over a
    store state [db].  Each either resolves with a value or rejects with an
    error.  [find] stands for the query [Meal.find(filter).populate(path,
    select)], a read.  [findByIdAndUpdate] and [findByIdAndDelete] resolve
    with the document, or with [null] when there is none. *)
Record Model := {
  db : Type;
  find : value -> string -> string -> db -> result value;
  create : value -> db -> result value * db;
  findByIdAndUpdate : value -> value -> value -> db -> result value * db;
  findByIdAndDelete : value -> db -> result value * db
}.

(** A store call as the controller issues it, with its arguments. *)
Inductive call :=
| Find (filter : value) (path select : string)
| Create (doc : value)
| FindByIdAndUpdate (id update options : value)
| FindByIdAndDelete (id : value).

Definition is_read (c : call) : bool :=
  match c with
  | Find _ _ _ => true
  | _ => false
  end.

End Meal.

(* ===================================================================== *)
(** ** Requests, responses and the handler monad *)
(* ===================================================================== *)

(** The caller identity that the authentication middleware attaches. *)
Record User := { _id : value }.

Record AuthRequest := {
  user : option User;
  query : list (string * value);
  params : list (string * value);
  body : value
}.

(** One [res.status(code).json(payload)]. *)
Record Response := { status : nat; json : value }.

Section World.
Variable model : Meal.Model.

Record world := {
  store : Meal.db model;
  calls : list Meal.call;
  sent : list Response
}.

(** The world before any handler has run on it. *)
Definition init (d : Meal.db model) : world :=
  {| store := d; calls := []; sent := [] |}.

(** A computation reads and writes the world and may throw. *)
Definition M (A : Type) : Type := world -> result A * world.

Definition ret {A} (a : A) : M A := fun w => (Ok a, w).

Definition bind {A B} (m : M A) (k : A -> M B) : M B :=
  fun w =>
    match m w with
    | (Ok a, w') => k a w'
    | (Throw e, w') => (Throw e, w')
    end.

Definition lift {A} (r : result A) : M A := fun w => (r, w).

(** [try { body } catch (err) { handler }] *)
Definition try_catch {A} (m : M A) (handler : error -> M A) : M A :=
  fun w =>
    match m w with
    | (Ok a, w') => (Ok a, w')
    | (Throw e, w') => handler e w'
    end.

(** [res.status(code).json(payload)] *)
Definition send (code : nat) (payload : value) : M unit :=
  fun w =>
    (Ok tt,
     {| store := store w; calls := calls w;
        sent := sent w ++ [{| status := code; json := payload |}] |}).

Definition logged (c : Meal.call) (w : world) (d : Meal.db model) : world :=
  {| store := d; calls := calls w ++ [c]; sent := sent w |}.

(** [await Meal.find(filter).populate(path, select)] *)
Definition Meal_find (filter : value) (path select : string) : M value :=
  fun w =>
    (Meal.find model filter path select (store w),
     logged (Meal.Find filter path select) w (store w)).

(** [await Meal.create(doc)] *)
Definition Meal_create (doc : value) : M value :=
  fun w =>
    let '(r, d) := Meal.create model doc (store w) in
    (r, logged (Meal.Create doc) w d).

(** [await Meal.findByIdAndUpdate(id, update, options)] *)
Definition Meal_findByIdAndUpdate (id update options : value) : M value :=
  fun w =>
    let '(r, d) := Meal.findByIdAndUpdate model id update options (store w) in
    (r, logged (Meal.FindByIdAndUpdate id update options) w d).

(** [await Meal.findByIdAndDelete(id)] *)
Definition Meal_findByIdAndDelete (id : value) : M value :=
  fun w =>
    let '(r, d) := Meal.findByIdAndDelete model id (store w) in
    (r, logged (Meal.FindByIdAndDelete id) w d).

End World.

Arguments ret {model A} a.
Arguments bind {model A B} m k.
Arguments lift {model A} r.
Arguments try_catch {model A} m handler.
Arguments send {model} code payload.
Arguments store {model} w.
Arguments calls {model} w.
Arguments sent {model} w.

Notation "x <- m ;; k" := (bind m (fun x => k))
  (at level 100, m at next level, right associativity).

(* ===================================================================== *)
(** ** The controller *)
(* ===================================================================== *)

Definition envelope_error (err msg : string) : value :=
  VObj [("error", VStr err); ("message", VStr msg)].

Definition envelope_data (data : value) : value :=
  VObj [("success", VBool true); ("data", data)].

Definition envelope_message (msg : string) : value :=
  VObj [("success", VBool true); ("message", VStr msg)].

Definition unauthorized : value :=
  envelope_error "Unauthorized" "User not authenticated".

Definition not_found : value := envelope_error "Not found" "Meal not found".

Definition required_message : string :=
  "Name, calories, carbs, protein, fat và weightGrams là bắt buộc".

(** [a || b] where both sides may throw: [b] is evaluated only when [a] is
    false. *)
Definition or_else (a b : result bool) : result bool :=
  rbind a (fun x => if x then Ok true else b).

(** [v === s] for a string literal [s]: strict equality, no coercion. *)
Definition strict_equals (v : value) (s : string) : bool :=
  match v with
  | VStr t => String.eqb t s
  | _ => false
  end.

(** [(err as { name?: string }).name === 'ValidationError'].  The cast is
    erased at run time: the read throws a TypeError when [err] is
    [undefined] or [null]. *)
Definition is_validation_error (err : error) : result bool :=
  rbind (get_prop err "name") (fun n => Ok (strict_equals n "ValidationError")).

(** [(err as { message?: string }).message || 'Validation error']: the
    message itself, whatever its type, when it is truthy. *)
Definition message_or_default (err : error) : result value :=
  rbind (get_prop err "message")
    (fun m => Ok (if ToBoolean m then m else VStr "Validation error")).

Section Controller.
Variable rt : Runtime.
Variable model : Meal.Model.

Definition getAllMeals (req : AuthRequest) : M model unit :=
  try_catch
    (match user req with
     | None => send 401 unauthorized
     | Some _ =>
         let search := prop "search" (query req) in
         let filter :=
           if ToBoolean search
           then VObj [("$text", VObj [("$search", search)])]
           else VObj [] in
         meals <- Meal_find model filter "createdBy" "name email" ;;
         send 200 (envelope_data meals)
     end)
    (fun _ => send 500 (envelope_error "Internal server error" "Failed to get meals")).

(** The catch clause shared in shape by [createMeal] and [updateMeal].
    What it throws itself is not caught by anything. *)
Definition on_error (generic : string) (err : error) : M model unit :=
  validation <- lift (is_validation_error err) ;;
  if validation
  then
    message <- lift (message_or_default err) ;;
    send 400 (VObj [("error", VStr "Validation error"); ("message", message)])
  else send 500 (envelope_error "Internal server error" generic).

Definition createMeal (req : AuthRequest) : M model unit :=
  try_catch
    (match user req with
     | None => send 401 unauthorized
     | Some u =>
         name <- lift (get_prop (body req) "name") ;;
         description <- lift (get_prop (body req) "description") ;;
         image <- lift (get_prop (body req) "image") ;;
         calories <- lift (get_prop (body req) "calories") ;;
         carbs <- lift (get_prop (body req) "carbs") ;;
         protein <- lift (get_prop (body req) "protein") ;;
         fat <- lift (get_prop (body req) "fat") ;;
         weightGrams <- lift (get_prop (body req) "weightGrams") ;;
         if negb (ToBoolean name)
            || is_undefined calories
            || is_undefined carbs
            || is_undefined protein
            || is_undefined fat
            || is_undefined weightGrams
         then send 400 (envelope_error "Validation error" required_message)
         else
           negative <- lift (or_else (lt_zero rt calories)
                            (or_else (lt_zero rt carbs)
                            (or_else (lt_zero rt protein)
                            (or_else (lt_zero rt fat)
                                     (lt_zero rt weightGrams))))) ;;
           if negative
           then send 400 (envelope_error "Validation error"
                            "Nutrition values/weight cannot be negative")
           else
             meal <- Meal_create model
                       (VObj [("name", name);
                              ("description", description);
                              ("image", image);
                              ("calories", calories);
                              ("carbs", carbs);
                              ("protein", protein);
                              ("fat", fat);
                              ("weightGrams", weightGrams);
                              ("isCommon", VBool true);
                              ("createdBy", _id u)]) ;;
             send 201 (envelope_data meal)
     end)
    (on_error "Failed to create meal").

(** [updateData.field !== undefined && updateData.field < 0] *)
Definition provided_negative (updateData : value) (field : string) : result bool :=
  rbind (get_prop updateData field)
    (fun v =>
       if negb (is_undefined v)
       then rbind (get_prop updateData field) (lt_zero rt)
       else Ok false).

Definition updateMeal (req : AuthRequest) : M model unit :=
  try_catch
    (match user req with
     | None => send 401 unauthorized
     | Some _ =>
         let id := prop "id" (params req) in
         let updateData := body req in
         bad <- lift (provided_negative updateData "calories") ;;
         if bad then send 400 (envelope_error "Validation error" "Calories cannot be negative") else
         bad <- lift (provided_negative updateData "carbs") ;;
         if bad then send 400 (envelope_error "Validation error" "Carbs cannot be negative") else
         bad <- lift (provided_negative updateData "protein") ;;
         if bad then send 400 (envelope_error "Validation error" "Protein cannot be negative") else
         bad <- lift (provided_negative updateData "fat") ;;
         if bad then send 400 (envelope_error "Validation error" "Fat cannot be negative") else
         bad <- lift (provided_negative updateData "weightGrams") ;;
         if bad then send 400 (envelope_error "Validation error" "Weight cannot be negative") else
         meal <- Meal_findByIdAndUpdate model id updateData (VObj [("new", VBool true)]) ;;
         if negb (ToBoolean meal)
         then send 404 not_found
         else send 200 (envelope_data meal)
     end)
    (on_error "Failed to update meal").

Definition deleteMeal (req : AuthRequest) : M model unit :=
  try_catch
    (match user req with
     | None => send 401 unauthorized
     | Some _ =>
         let id := prop "id" (params req) in
         meal <- Meal_findByIdAndDelete model id ;;
         if negb (ToBoolean meal)
         then send 404 not_found
         else send 200 (envelope_message "Meal deleted successfully")
     end)
    (fun _ => send 500 (envelope_error "Internal server error" "Failed to delete meal")).

End Controller.

(* ===================================================================== *)
(** ** Stores and a runtime to run the handlers on *)
(* ===================================================================== *)

Module MemStore.

(** Modelled from the spec: the document store.  The Mongoose model behind
    [Meal] (its schema and the database) is not part of the controller
    file; this in-memory store follows the spec's data model and glossary:
    identifiers are assigned by the store on creation, a Meal needs a
    non-empty [name] and five amounts that are numbers not below zero,
    update-by-identifier overwrites only the fields supplied, and
    delete-by-identifier removes the document for good.  How a search term
    matches a document and how [createdBy] is expanded are left to the two
    parameters [matches] and [expand]. *)
Record state := { docs : gmap string value; next_id : N }.

Definition empty : state := {| docs := ∅; next_id := 1 |}.

Fixpoint set_prop (k : string) (v : value) (props : list (string * value))
  : list (string * value) :=
  match props with
  | [] => [(k, v)]
  | (k', v') :: rest =>
      if String.eqb k k' then (k, v) :: rest else (k', v') :: set_prop k v rest
  end.

Definition defined_props (props : list (string * value)) : list (string * value) :=
  List.filter (fun kv => negb (is_undefined (snd kv))) props.

Definition assign (target update : list (string * value)) : list (string * value) :=
  fold_left (fun acc kv => set_prop (fst kv) (snd kv) acc) (defined_props update) target.

Definition valid_name (v : value) : bool :=
  match v with
  | VStr s => negb (String.eqb s "")
  | _ => false
  end.

Definition valid_amount (v : value) : bool :=
  match v with
  | VNum NaN => false
  | VNum n => negb (number_lt_zero n)
  | _ => false
  end.

Definition validation_failed : error :=
  VObj [("name", VStr "ValidationError"); ("message", VStr "Meal validation failed")].

Section Ops.
Variable matches : value -> value -> bool.
Variable expand : string -> string -> value -> value.

(** Modelled from the spec: filtered find.  An empty filter lists every
    document; a [$text] filter keeps those that [matches] accepts; each
    result has its reference expanded by [expand]. *)
Definition find (filter : value) (path select : string) (st : state) : result value :=
  let all := List.map snd (map_to_list (docs st)) in
  let hits :=
    match filter with
    | VObj fprops =>
        match own "$text" fprops with
        | Some (VObj tprops) => List.filter (matches (prop "$search" tprops)) all
        | _ => all
        end
    | _ => all
    end in
  Ok (VArr (List.map (expand path select) hits)).

(** Modelled from the spec: create.  The store checks the schema, assigns
    the identifier and inserts; a document that fails the schema is
    refused with a ValidationError and nothing is inserted. *)
Definition create (doc : value) (st : state) : result value * state :=
  match doc with
  | VObj props =>
      if valid_name (prop "name" props)
         && forallb (fun f => valid_amount (prop f props))
              ["calories"; "carbs"; "protein"; "fat"; "weightGrams"]
      then
        let id := pretty (next_id st) in
        let stored := VObj (("_id", VStr id) :: defined_props props) in
        (Ok stored, {| docs := <[id := stored]> (docs st); next_id := next_id st + 1 |})
      else (Throw validation_failed, st)
  | _ => (Throw validation_failed, st)
  end.

(** Modelled from the spec: partial update-by-identifier.  Only the
    properties supplied are overwritten; with [{ new: true }] the updated
    document is returned; an identifier that resolves to nothing gives
    [null]. *)
Definition findByIdAndUpdate (id update options : value) (st : state)
  : result value * state :=
  match id, docs st !! (match id with VStr k => k | _ => "" end) with
  | VStr k, Some (VObj props) =>
      let updated :=
        VObj (assign props (match update with VObj u => u | _ => [] end)) in
      let returned :=
        match options with
        | VObj o => if ToBoolean (prop "new" o) then updated else VObj props
        | _ => VObj props
        end in
      (Ok returned, {| docs := <[k := updated]> (docs st); next_id := next_id st |})
  | _, _ => (Ok VNull, st)
  end.

(** Modelled from the spec: delete-by-identifier.  The document is
    removed and returned; an identifier that resolves to nothing gives
    [null]. *)
Definition findByIdAndDelete (id : value) (st : state) : result value * state :=
  match id, docs st !! (match id with VStr k => k | _ => "" end) with
  | VStr k, Some doc =>
      (Ok doc, {| docs := delete k (docs st); next_id := next_id st |})
  | _, _ => (Ok VNull, st)
  end.

Definition model : Meal.Model :=
  {| Meal.db := state;
     Meal.find := find;
     Meal.create := create;
     Meal.findByIdAndUpdate := findByIdAndUpdate;
     Meal.findByIdAndDelete := findByIdAndDelete |}.

End Ops.

End MemStore.

Module Rejecting.

(** A store whose every operation rejects with the value [e], as a store
    that is down (or a schema that refuses everything) does. *)
Definition model (e : error) : Meal.Model :=
  {| Meal.db := unit;
     Meal.find := fun _ _ _ _ => Throw e;
     Meal.create := fun _ d => (Throw e, d);
     Meal.findByIdAndUpdate := fun _ _ _ d => (Throw e, d);
     Meal.findByIdAndDelete := fun _ d => (Throw e, d) |}.

End Rejecting.

Module IntRuntime.

(** A runtime for running examples: its two conversions are those of
    JavaScript on integers written in decimal, and it answers NaN
    elsewhere. *)
Fixpoint digits (s : string) (acc : Z) : option Z :=
  match s with
  | EmptyString => Some acc
  | String c rest =>
      let n := Z.of_nat (Ascii.nat_of_ascii c) in
      if (48 <=? n)%Z && (n <=? 57)%Z
      then digits rest (10 * acc + (n - 48))%Z
      else None
  end.

Definition StringToNumber (s : string) : number :=
  match s with
  | EmptyString => of_Z 0
  | String "-"%char (String c rest) =>
      match digits (String c rest) 0 with
      | Some z => of_Z (- z)
      | None => NaN
      end
  | _ =>
      match digits s 0 with
      | Some z => of_Z z
      | None => NaN
      end
  end.

Definition NumberToString (n : number) : string :=
  match n with
  | Finite m 0 => pretty m
  | Infinity false => "Infinity"
  | Infinity true => "-Infinity"
  | _ => "NaN"
  end.

Definition rt : Runtime :=
  {| JS.StringToNumber := StringToNumber; JS.NumberToString := NumberToString |}.

End IntRuntime.

(* ===================================================================== *)
(** ** Vocabulary of the statements *)
(* ===================================================================== *)

(** The world [w] after one more [res.status(code).json(payload)] and
    nothing else: same store, same call log. *)
Definition respond {model} (w : world model) (code : nat) (payload : value)
  : world model :=
  {| store := store w; calls := calls w;
     sent := sent w ++ [{| status := code; json := payload |}] |}.

(** The world [w] after the store call [c] left the store in state [d],
    followed by one response. *)
Definition called {model} (w : world model) (c : Meal.call) (d : Meal.db model)
    (code : nat) (payload : value) : world model :=
  {| store := d; calls := calls w ++ [c];
     sent := sent w ++ [{| status := code; json := payload |}] |}.

(** The five amounts, in the order in which both handlers check them. *)
Definition numeric_fields : list string :=
  ["calories"; "carbs"; "protein"; "fat"; "weightGrams"].

(** The message [updateMeal] has for each amount. *)
Definition update_messages : list (string * string) :=
  [("calories", "Calories cannot be negative");
   ("carbs", "Carbs cannot be negative");
   ("protein", "Protein cannot be negative");
   ("fat", "Fat cannot be negative");
   ("weightGrams", "Weight cannot be negative")].

(** [v < 0] evaluates (to either answer) instead of throwing.  Every
    number does, and so do [undefined], [null], booleans and strings. *)
Definition compares (rt : Runtime) (v : value) : Prop :=
  exists b, lt_zero rt v = Ok b.

(** [v < 0] is true. *)
Definition negative (rt : Runtime) (v : value) : Prop := lt_zero rt v = Ok true.

(** [v < 0] is false. *)
Definition not_negative (rt : Runtime) (v : value) : Prop := lt_zero rt v = Ok false.

(** [v !== undefined] and [v >= 0] is true. *)
Definition defined_nonneg (rt : Runtime) (v : value) : Prop :=
  is_undefined v = false /\ ge_zero rt v = Ok true.

(** The document [createMeal] hands to [Meal.create] for the body [props]
    and the caller [u]. *)
Definition stamped (props : list (string * value)) (u : User) : list (string * value) :=
  [("name", prop "name" props);
   ("description", prop "description" props);
   ("image", prop "image" props);
   ("calories", prop "calories" props);
   ("carbs", prop "carbs" props);
   ("protein", prop "protein" props);
   ("fat", prop "fat" props);
   ("weightGrams", prop "weightGrams" props);
   ("isCommon", VBool true);
   ("createdBy", _id u)].

(** *** Sample data for the examples *)

Module Sample.

Definition admin : User := {| _id := VStr "64a0c0ffee" |}.

(** A store that matches a search term against the [name] exactly and
    leaves [createdBy] as it is. *)
Definition store : Meal.Model :=
  MemStore.model
    (fun term doc =>
       match term, doc with
       | VStr t, VObj props =>
           match prop "name" props with
           | VStr n => String.eqb t n
           | _ => false
           end
       | _, _ => false
       end)
    (fun _ _ doc => doc).

Definition request (who : option User) (search : list (string * value))
    (id : string) (payload : value) : AuthRequest :=
  {| user := who; query := search; params := [("id", VStr id)]; body := payload |}.

Definition rice : list (string * value) :=
  [("name", VStr "Rice"); ("calories", num 200); ("carbs", num 45);
   ("protein", num 4); ("fat", num 0); ("weightGrams", num 150)].

(** The Rice payload with values of its own for the two stamped fields. *)
Definition forged : list (string * value) :=
  rice ++ [("isCommon", VBool false); ("createdBy", VStr "someone-else")].

(** An update body with two negative amounts. *)
Definition two_negatives : list (string * value) :=
  [("calories", num (-1)); ("carbs", num (-1))].

(** A create payload with no [fat] and a negative [carbs]. *)
Definition incomplete : list (string * value) :=
  [("name", VStr "Rice"); ("calories", num 0); ("carbs", num (-1));
   ("protein", num 4); ("weightGrams", num 150)].

(** A schema validation error that carries an empty message, as
    [new Error()] with its name set does. *)
Definition blank_validation_error : error :=
  VObj [("name", VStr "ValidationError"); ("message", VStr "")].

(** The store after the Rice meal was created in it, under identifier "1". *)
Definition with_rice : MemStore.state :=
  snd (MemStore.create (VObj (stamped rice admin)) MemStore.empty).

(** The Rice meal as that store holds it. *)
Definition stored_rice : value :=
  match fst (MemStore.create (VObj (stamped rice admin)) MemStore.empty) with
  | Ok doc => doc
  | Throw _ => VNull
  end.

End Sample.

(* ===================================================================== *)
(** ** The router of [routes/adminMealRoutes.ts] *)
(* ===================================================================== *)

Module Router.

(** The request method, as far as the router tells methods apart. *)
Inductive Method :=
| GET | HEAD | POST | PUT | DELETE | OPTIONS
| OTHER (verb : string).

(** What a middleware does with a request: it calls [next()], handing on
    the request object as it has left it, or it ends the request itself
    (it answers, as an authentication failure does).  Throwing, or calling
    [next(err)], is the [Throw] of the monad. *)
Inductive verdict :=
| Next (req : AuthRequest)
| Stop.

Definition Middleware (model : Meal.Model) : Type := AuthRequest -> M model verdict.

(** A request as the router receives it: the method, the path below the
    mount point cut into its segments (the empty list is [/]), and the
    request object. *)
Record Incoming := {
  method : Method;
  path : list string;
  request : AuthRequest
}.

(** How the router leaves a request: a middleware or a handler took it;
    or no handler did and the method was OPTIONS on a path that has
    routes, which Express answers itself with the methods of those
    routes; or nothing matched and the router calls [next()]. *)
Inductive routed :=
| Ended
| Allow (verbs : list string)
| Unmatched.

(** The request object with the parameters of the matched route. *)
Definition with_params (r : AuthRequest) (ps : list (string * value)) : AuthRequest :=
  {| user := user r; query := query r; params := ps; body := body r |}.

Section Routes.
Variable rt : Runtime.
Variable model : Meal.Model.
Variable authenticate : Middleware model.
Variable requireRole : string -> Middleware model.

(** The four routes, tried in the order in which they are registered.
    [router.get] also serves HEAD; [/:id] takes exactly one segment.  A
    handler whose promise rejects leaves the router with that error (the
    [Throw] of the monad): nothing else of the router runs for the
    request. *)
Definition dispatch (m : Method) (p : list string) (r : AuthRequest) : M model routed :=
  match m, p with
  | (GET | HEAD), [] => _ <- getAllMeals model (with_params r []) ;; ret Ended
  | POST, [] => _ <- createMeal rt model (with_params r []) ;; ret Ended
  | PUT, [id] => _ <- updateMeal rt model (with_params r [("id", VStr id)]) ;; ret Ended
  | DELETE, [id] => _ <- deleteMeal model (with_params r [("id", VStr id)]) ;; ret Ended
  | OPTIONS, [] => ret (Allow ["GET"; "HEAD"; "POST"])
  | OPTIONS, [_] => ret (Allow ["PUT"; "DELETE"])
  | _, _ => ret Unmatched
  end.

(** The router: [router.use(authenticate)], [router.use(requireRole('admin'))],
    then the routes. *)
Definition adminMealRoutes (inc : Incoming) : M model routed :=
  v <- authenticate (request inc) ;;
  match v with
  | Stop => ret Ended
  | Next authenticated =>
      v <- requireRole "admin" authenticated ;;
      match v with
      | Stop => ret Ended
      | Next authorized => dispatch (method inc) (path inc) authorized
      end
  end.

End Routes.

End Router.

(* ===================================================================== *)
(** ** More vocabulary *)
(* ===================================================================== *)

(** The keys of the document [createMeal] builds, in order. *)
Definition created_keys : list string :=
  ["name"; "description"; "image"; "calories"; "carbs"; "protein"; "fat";
   "weightGrams"; "isCommon"; "createdBy"].



(** The conditions under which [createMeal] lets a body through to the
    store: a truthy [name], and five amounts that are not [undefined] and
    on which [< 0] is false. *)
Definition create_accepts (rt : Runtime) (props : list (string * value)) : Prop :=
  ToBoolean (prop "name" props) = true
  /\ Forall (fun f => is_undefined (prop f props) = false
                      /\ not_negative rt (prop f props)) numeric_fields.

(** A value that is present without being a number at all. *)
Definition present_non_number (v : value) : Prop :=
  v = VNull \/ v = VNum NaN \/ exists b, v = VBool b.

(** A body that is neither an object nor [undefined] or [null]: a
    boolean, a number, a string or an array. *)
Definition scalar_or_array (v : value) : Prop :=
  match v with
  | VBool _ | VNum _ | VStr _ | VArr _ => True
  | VUndefined | VNull | VObj _ => False
  end.

(** A middleware that leaves the Meal store alone. *)
Definition store_free {model} (mw : Router.Middleware model) : Prop :=
  forall r w, calls (snd (mw r w)) = calls w /\ store (snd (mw r w)) = store w.

(** The method and path combinations that have a route. *)
Definition has_route (m : Router.Method) (p : list string) : bool :=
  match m, p with
  | (Router.GET | Router.HEAD | Router.POST), [] => true
  | (Router.PUT | Router.DELETE), [_] => true
  | _, _ => false
  end.

(** The store call that belongs to a method and path: the operation of the
    route, on the identifier that the path carries. *)
Definition route_allows (m : Router.Method) (p : list string) (c : Meal.call) : Prop :=
  match m, p, c with
  | (Router.GET | Router.HEAD), [], Meal.Find _ _ _ => True
  | Router.POST, [], Meal.Create _ => True
  | Router.PUT, [id], Meal.FindByIdAndUpdate i _ _ => i = VStr id
  | Router.DELETE, [id], Meal.FindByIdAndDelete i => i = VStr id
  | _, _, _ => False
  end.

Module Gate.

(** Modelled from the spec: the two middlewares of [middleware/auth],
    which is not part of these files, as test doubles to run the router
    on.  The first
    attaches the caller that a [token] query parameter names, and ends the
    request when there is none; the second lets the caller named after
    the role through.  Neither touches the Meal store. *)
Definition authenticate (model : Meal.Model) : Router.Middleware model :=
  fun req =>
    match prop "token" (query req) with
    | VStr who =>
        ret (Router.Next {| user := Some {| _id := VStr who |};
                            query := query req; params := params req;
                            body := body req |})
    | _ => _ <- send 401 unauthorized ;; ret Router.Stop
    end.

Definition requireRole (model : Meal.Model) (role : string) : Router.Middleware model :=
  fun req =>
    match user req with
    | Some {| _id := VStr who |} =>
        if String.eqb who role then ret (Router.Next req)
        else _ <- send 403 (envelope_error "Forbidden" "Insufficient role") ;; ret Router.Stop
    | _ => _ <- send 403 (envelope_error "Forbidden" "Insufficient role") ;; ret Router.Stop
    end.

End Gate.

(* ===================================================================== *)
(** ** Facts about the runtime *)
(* ===================================================================== *)

Section RuntimeFacts.
Variable rt : Runtime.

Lemma lt_zero_number (n : number) : lt_zero rt (VNum n) = Ok (number_lt_zero n).
Proof. reflexivity. Qed.

Lemma number_compares (n : number) : compares rt (VNum n).
Proof. exists (number_lt_zero n). reflexivity. Qed.

(** [v >= 0] being true rules out [v < 0]. *)
Lemma ge_zero_not_negative (v : value) :
  ge_zero rt v = Ok true -> not_negative rt v.
Proof.
  unfold ge_zero, not_negative, lt_zero.
  destruct (ToNumber rt v) as [n|e]; simpl; [|discriminate].
  destruct n as [|neg|m e]; simpl; try discriminate;
    intros H; injection H as H; apply negb_true_iff in H; now rewrite H.
Qed.

(** On an object, the guard [updateData.f !== undefined && updateData.f < 0]
    is just [updateData.f < 0]: [undefined < 0] is false. *)
Lemma provided_negative_object (props : list (string * value)) (f : string) :
  provided_negative rt (VObj props) f = lt_zero rt (prop f props).
Proof.
  unfold provided_negative. simpl.
  destruct (prop f props); reflexivity.
Qed.

Lemma truthy_string (s : string) : ToBoolean (VStr s) = true <-> s <> "".
Proof.
  simpl. rewrite negb_true_iff. split.
  - intros H E. subst s. discriminate.
  - intros H. apply String.eqb_neq. exact H.
Qed.

(** A property read throws on [undefined] and [null] only. *)
Lemma get_prop_defined (v : value) (k : string) :
  v <> VUndefined -> v <> VNull -> exists x, get_prop v k = Ok x.
Proof. destruct v; intros H1 H2; try contradiction; eexists; reflexivity. Qed.

Lemma strict_equals_iff (v : value) (s : string) :
  strict_equals v s = true <-> v = VStr s.
Proof.
  destruct v; simpl; try (split; discriminate).
  rewrite String.eqb_eq. split; congruence.
Qed.

End RuntimeFacts.

(* ===================================================================== *)
(** ** The handlers, case by case *)
(* ===================================================================== *)

Ltac run_handler :=
  unfold getAllMeals, createMeal, updateMeal, deleteMeal, on_error,
    try_catch, bind, lift, send, ret,
    Meal_find, Meal_create, Meal_findByIdAndUpdate, Meal_findByIdAndDelete,
    logged, respond, called.

(** C3. A request with no caller identity attached: each of the four
    handlers answers 401 with the body
    [{ error: 'Unauthorized', message: 'User not authenticated' }], makes no
    store call and leaves the store as it was. *)
Theorem unauthenticated_is_401 (rt : Runtime) (model : Meal.Model)
    (req : AuthRequest) (w : world model) :
  user req = None ->
  Forall
    (fun handler =>
       exists w',
         handler w = (Ok tt, w')
         /\ sent w' = sent w ++
              [{| status := 401;
                  json := VObj [("error", VStr "Unauthorized");
                                ("message", VStr "User not authenticated")] |}]
         /\ calls w' = calls w
         /\ store w' = store w)
    [getAllMeals model req; createMeal rt model req;
     updateMeal rt model req; deleteMeal model req].
Proof.
  intros Hanon.
  repeat constructor; eexists; run_handler; rewrite Hanon; simpl;
    repeat split; reflexivity.
Qed.

Lemma unauthenticated_is_401_witness :
  user (Sample.request None [] "1" (VObj Sample.rice)) = None
  /\ Forall
       (fun handler : M Sample.store unit =>
          exists w',
            handler (init Sample.store Sample.with_rice) = (Ok tt, w')
            /\ sent w' = [] ++
                 [{| status := 401;
                     json := VObj [("error", VStr "Unauthorized");
                                   ("message", VStr "User not authenticated")] |}]
            /\ calls w' = []
            /\ store w' = Sample.with_rice)
       [getAllMeals Sample.store (Sample.request None [] "1" (VObj Sample.rice));
        createMeal IntRuntime.rt Sample.store (Sample.request None [] "1" (VObj Sample.rice));
        updateMeal IntRuntime.rt Sample.store (Sample.request None [] "1" (VObj Sample.rice));
        deleteMeal Sample.store (Sample.request None [] "1" (VObj Sample.rice))].
Proof.
  split; [reflexivity|].
  apply (unauthenticated_is_401 IntRuntime.rt Sample.store
           (Sample.request None [] "1" (VObj Sample.rice))
           (init Sample.store Sample.with_rice)).
  reflexivity.
Defined.

(* ===================================================================== *)
(** ** A rejection that the catch clauses do not survive *)
(* ===================================================================== *)

(** C9 fails on the code where the store rejects with [undefined] (or
    [null]): the catch clause of [createMeal] and of [updateMeal] reads
    [err.name], which throws a TypeError of its own; that error escapes
    the handler and no response is sent.  [getAllMeals] and [deleteMeal],
    whose catch clauses bind nothing, answer 500 on the same rejection. *)
Theorem nullish_rejection_escapes :
  let down := Rejecting.model VUndefined in
  let req := Sample.request (Some Sample.admin) [] "1" (VObj Sample.rice) in
  let escaped := Throw (TypeError "Cannot read properties of undefined or null") in
  Meal.create down (VObj (stamped Sample.rice Sample.admin)) tt = (Throw VUndefined, tt)
  /\ fst (createMeal IntRuntime.rt down req (init down tt)) = escaped
  /\ sent (snd (createMeal IntRuntime.rt down req (init down tt))) = []
  /\ fst (updateMeal IntRuntime.rt down req (init down tt)) = escaped
  /\ sent (snd (updateMeal IntRuntime.rt down req (init down tt))) = []
  /\ status <$> sent (snd (getAllMeals down req (init down tt))) = [500]
  /\ status <$> sent (snd (deleteMeal down req (init down tt))) = [500]
  /\ createMeal IntRuntime.rt (Rejecting.model VNull) req (init (Rejecting.model VNull) tt)
     = (escaped,
        logged (Rejecting.model VNull)
          (Meal.Create (VObj (stamped Sample.rice Sample.admin)))
          (init (Rejecting.model VNull) tt) tt).
Proof. repeat split. Qed.

(* ===================================================================== *)
(** ** createMeal *)
(* ===================================================================== *)

#[local] Arguments prop : simpl never.
#[local] Arguments lt_zero : simpl never.
#[local] Arguments ToBoolean : simpl never.
#[local] Arguments is_undefined : simpl never.

(** Settle a goal by cases on what the catch clause reads off the error. *)
Ltac by_catch_cases :=
  repeat first
    [ reflexivity
    | match goal with
      | |- context [is_validation_error ?e] =>
          destruct (is_validation_error e) as [[]|?]
      | |- context [message_or_default ?e] =>
          destruct (message_or_default e) as [?|?]
      end; simpl ].

Ltac split_fields H :=
  unfold numeric_fields in H; rewrite ?Forall_cons in H;
  destruct H as (?Hcalories & ?Hcarbs & ?Hprotein & ?Hfat & ?HweightGrams & _).

(** Past both checks, [createMeal] is its store call followed by the
    answer that the store's outcome selects. *)
Lemma createMeal_reaches_store (rt : Runtime) (model : Meal.Model)
    (req : AuthRequest) (w : world model) (u : User)
    (props : list (string * value)) :
  user req = Some u ->
  body req = VObj props ->
  ToBoolean (prop "name" props) = true ->
  Forall (fun f => is_undefined (prop f props) = false
                   /\ not_negative rt (prop f props)) numeric_fields ->
  createMeal rt model req w =
    match Meal.create model (VObj (stamped props u)) (store w) with
    | (Ok meal, d) =>
        (Ok tt, called w (Meal.Create (VObj (stamped props u))) d 201 (envelope_data meal))
    | (Throw e, d) =>
        on_error model "Failed to create meal" e
          (logged model (Meal.Create (VObj (stamped props u))) w d)
    end.
Proof.
  intros Huser Hbody Hname Hfields.
  split_fields Hfields.
  repeat match goal with
         | H : _ /\ not_negative _ _ |- _ => destruct H as [? ?]
         end.
  unfold not_negative in *.
  run_handler. rewrite Huser, Hbody. simpl.
  rewrite Hname.
  repeat match goal with H : is_undefined _ = false |- _ => rewrite H; clear H end.
  simpl. unfold or_else.
  repeat match goal with H : lt_zero _ _ = Ok false |- _ => rewrite H; clear H end.
  simpl. unfold stamped.
  destruct (Meal.create _ _ _) as [[meal|e] d]; by_catch_cases.
Qed.

Lemma on_error_calls (model : Meal.Model) (generic : string) (e : error)
    (w : world model) :
  calls (snd (on_error model generic e w)) = calls w
  /\ store (snd (on_error model generic e w)) = store w.
Proof. unfold on_error, bind, lift, send. split; by_catch_cases. Qed.

(** C1. An authenticated request whose body has a truthy [name] and five
    amounts that are defined and [>= 0]: [createMeal] hands exactly one
    document to [Meal.create], whose [isCommon] is [true] and whose
    [createdBy] is the caller's [_id] whatever the body says about those
    two; and when the store resolves with the created meal, the response
    is 201 with [{ success: true, data: meal }]. *)
Theorem createMeal_stamps_valid_payload (rt : Runtime) (model : Meal.Model)
    (req : AuthRequest) (w : world model) (u : User)
    (props : list (string * value)) :
  user req = Some u ->
  body req = VObj props ->
  ToBoolean (prop "name" props) = true ->
  Forall (fun f => defined_nonneg rt (prop f props)) numeric_fields ->
  exists doc,
    prop "isCommon" doc = VBool true
    /\ prop "createdBy" doc = _id u
    /\ Forall (fun f => prop f doc = prop f props)
         ("name" :: "description" :: "image" :: numeric_fields)
    /\ calls (snd (createMeal rt model req w)) = calls w ++ [Meal.Create (VObj doc)]
    /\ forall meal d,
         Meal.create model (VObj doc) (store w) = (Ok meal, d) ->
         createMeal rt model req w =
           (Ok tt,
            called w (Meal.Create (VObj doc)) d 201
              (VObj [("success", VBool true); ("data", meal)])).
Proof.
  intros Huser Hbody Hname Hfields.
  exists (stamped props u).
  split; [reflexivity|]. split; [reflexivity|].
  split; [repeat constructor|].
  rewrite (createMeal_reaches_store rt model req w u props Huser Hbody Hname).
  - split.
    + destruct (Meal.create _ _ _) as [[meal|e] d]; [reflexivity|].
      now rewrite (proj1 (on_error_calls _ _ _ _)).
    + intros meal d ->. reflexivity.
  - eapply Forall_impl; [exact Hfields|].
    intros f [Hdef Hge]. split; [exact Hdef|now apply ge_zero_not_negative].
Qed.

Lemma is_undefined_true (v : value) : is_undefined v = true <-> v = VUndefined.
Proof. destruct v; cbv; split; congruence. Qed.

Lemma or_else_ok (a b : result bool) (x y : bool) :
  a = Ok x -> b = Ok y -> or_else a b = Ok (x || y).
Proof. intros -> ->. now destruct x. Qed.

(** The first check of [createMeal]: the condition of its first [if]. *)
Lemma createMeal_missing (rt : Runtime) (model : Meal.Model)
    (req : AuthRequest) (w : world model) (u : User)
    (props : list (string * value)) :
  user req = Some u ->
  body req = VObj props ->
  ToBoolean (prop "name" props) = false
  \/ Exists (fun f => prop f props = VUndefined) numeric_fields ->
  createMeal rt model req w =
    (Ok tt, respond w 400 (envelope_error "Validation error" required_message)).
Proof.
  intros Huser Hbody Hmissing.
  run_handler. rewrite Huser, Hbody. simpl.
  match goal with
  | |- context [if ?c then _ else _] => assert (Hc : c = true); [|now rewrite Hc]
  end.
  destruct Hmissing as [Hname|Hundef].
  - now rewrite Hname.
  - unfold numeric_fields in Hundef.
    rewrite ?Exists_cons, Exists_nil in Hundef.
    rewrite !orb_true_iff, !is_undefined_true. tauto.
Qed.

(** The second check of [createMeal], reached when the first one passes. *)
Lemma createMeal_negative (rt : Runtime) (model : Meal.Model)
    (req : AuthRequest) (w : world model) (u : User)
    (props : list (string * value)) :
  user req = Some u ->
  body req = VObj props ->
  ToBoolean (prop "name" props) = true ->
  Forall (fun f => prop f props <> VUndefined) numeric_fields ->
  Forall (fun f => compares rt (prop f props)) numeric_fields ->
  Exists (fun f => negative rt (prop f props)) numeric_fields ->
  createMeal rt model req w =
    (Ok tt,
     respond w 400
       (envelope_error "Validation error" "Nutrition values/weight cannot be negative")).
Proof.
  intros Huser Hbody Hname Hdef Hcmp Hneg.
  run_handler. rewrite Huser, Hbody. simpl.
  rewrite Hname. simpl.
  split_fields Hdef.
  repeat match goal with
         | H : prop _ _ <> VUndefined |- _ =>
             rewrite <- is_undefined_true in H; apply not_true_is_false in H;
             rewrite H; clear H
         end.
  simpl.
  assert (Hchain :
            or_else (lt_zero rt (prop "calories" props))
              (or_else (lt_zero rt (prop "carbs" props))
                 (or_else (lt_zero rt (prop "protein" props))
                    (or_else (lt_zero rt (prop "fat" props))
                       (lt_zero rt (prop "weightGrams" props))))) = Ok true).
  { split_fields Hcmp.
    unfold compares in *.
    destruct Hcalories as [b1 H1], Hcarbs as [b2 H2], Hprotein as [b3 H3],
      Hfat as [b4 H4], HweightGrams as [b5 H5].
    unfold numeric_fields, negative in Hneg.
    rewrite ?Exists_cons, Exists_nil in Hneg.
    rewrite (or_else_ok _ _ b1 (b2 || (b3 || (b4 || b5))) H1);
      [|rewrite (or_else_ok _ _ b2 (b3 || (b4 || b5)) H2);
        [|rewrite (or_else_ok _ _ b3 (b4 || b5) H3);
          [|rewrite (or_else_ok _ _ b4 b5 H4 H5)]]]; try reflexivity.
    f_equal.
    rewrite H1, H2, H3, H4, H5 in Hneg.
    rewrite !orb_true_iff.
    destruct Hneg as [H|[H|[H|[H|[H|[]]]]]]; injection H as ->; tauto. }
  now rewrite Hchain.
Qed.

(** C4. An authenticated create request with an object body is answered
    400, with no store call and the store untouched, as soon as the [name]
    is falsy or missing, or one of the five amounts is [undefined], or one
    of them is negative (the comparisons being ones that evaluate, as they
    do on numbers).  The presence check comes first: its message is the
    one returned when it fails, negative amounts or not; the second
    message is for negative amounts when nothing is missing.  The number 0,
    although falsy, counts as present: a body whose amounts are all 0 goes
    through to [Meal.create]. *)
Theorem createMeal_rejects_invalid_payload (rt : Runtime) (model : Meal.Model)
    (req : AuthRequest) (w : world model) (u : User)
    (props : list (string * value)) :
  user req = Some u ->
  body req = VObj props ->
  let missing :=
    ToBoolean (prop "name" props) = false
    \/ Exists (fun f => prop f props = VUndefined) numeric_fields in
  let some_negative := Exists (fun f => negative rt (prop f props)) numeric_fields in
  let all_compare := Forall (fun f => compares rt (prop f props)) numeric_fields in
  (all_compare -> missing \/ some_negative ->
   exists msg,
     createMeal rt model req w =
       (Ok tt, respond w 400 (VObj [("error", VStr "Validation error");
                                    ("message", VStr msg)]))
     /\ calls (respond w 400 (VObj [("error", VStr "Validation error");
                                    ("message", VStr msg)])) = calls w
     /\ store (respond w 400 (VObj [("error", VStr "Validation error");
                                    ("message", VStr msg)])) = store w)
  /\ (missing ->
      createMeal rt model req w =
        (Ok tt, respond w 400 (VObj [("error", VStr "Validation error");
                                     ("message", VStr required_message)])))
  /\ (all_compare -> ~ missing -> some_negative ->
      createMeal rt model req w =
        (Ok tt, respond w 400
                  (VObj [("error", VStr "Validation error");
                         ("message", VStr "Nutrition values/weight cannot be negative")])))
  /\ (ToBoolean (num 0) = false
      /\ (ToBoolean (prop "name" props) = true ->
          Forall (fun f => prop f props = num 0) numeric_fields ->
          calls (snd (createMeal rt model req w)) =
            calls w ++ [Meal.Create (VObj (stamped props u))])).
Proof.
  intros Huser Hbody missing some_negative all_compare.
  assert (Hdec : missing \/ ~ missing).
  { unfold missing, numeric_fields. rewrite ?Exists_cons, Exists_nil.
    rewrite <- !is_undefined_true.
    destruct (ToBoolean (prop "name" props));
      repeat match goal with
             | |- context [is_undefined ?v] => destruct (is_undefined v)
             end; intuition congruence. }
  assert (Hsplit : ~ missing ->
            ToBoolean (prop "name" props) = true
            /\ Forall (fun f => prop f props <> VUndefined) numeric_fields).
  { unfold missing. intros Hnot. split.
    - destruct (ToBoolean (prop "name" props)); tauto.
    - apply Forall_forall. intros f Hin Hundef. apply Hnot. right.
      apply Exists_exists. eauto. }
  repeat split.
  - intros Hcmp Hbad.
    destruct Hdec as [Hmiss|Hpresent].
    + exists required_message.
      split; [now apply (createMeal_missing rt model req w u props)|].
      split; reflexivity.
    + destruct Hbad as [Hmiss|Hneg]; [contradiction|].
      destruct (Hsplit Hpresent) as [Hname Hdef].
      exists "Nutrition values/weight cannot be negative".
      split; [now apply (createMeal_negative rt model req w u props)|].
      split; reflexivity.
  - intros Hmiss. now apply (createMeal_missing rt model req w u props).
  - intros Hcmp Hpresent Hneg.
    destruct (Hsplit Hpresent) as [Hname Hdef].
    now apply (createMeal_negative rt model req w u props).
  - intros Hname Hzero.
    rewrite (createMeal_reaches_store rt model req w u props Huser Hbody Hname).
    + destruct (Meal.create _ _ _) as [[meal|e] d]; [reflexivity|].
      now rewrite (proj1 (on_error_calls _ _ _ _)).
    + eapply Forall_impl; [exact Hzero|].
      intros f ->. split; reflexivity.
Qed.

(* ===================================================================== *)
(** ** updateMeal *)
(* ===================================================================== *)

(** Past its five checks, [updateMeal] is its store call, on the body as it
    came, followed by the answer that the store's outcome selects. *)
Lemma updateMeal_reaches_store (rt : Runtime) (model : Meal.Model)
    (req : AuthRequest) (w : world model) (u : User) :
  user req = Some u ->
  Forall (fun f => provided_negative rt (body req) f = Ok false) numeric_fields ->
  let c := Meal.FindByIdAndUpdate (prop "id" (params req)) (body req)
             (VObj [("new", VBool true)]) in
  updateMeal rt model req w =
    match Meal.findByIdAndUpdate model (prop "id" (params req)) (body req)
            (VObj [("new", VBool true)]) (store w) with
    | (Ok meal, d) =>
        if ToBoolean meal
        then (Ok tt, called w c d 200 (envelope_data meal))
        else (Ok tt, called w c d 404 not_found)
    | (Throw e, d) => on_error model "Failed to update meal" e (logged model c w d)
    end.
Proof.
  intros Huser Hpass c. subst c.
  split_fields Hpass.
  run_handler. rewrite Huser. simpl.
  rewrite Hcalories, Hcarbs, Hprotein, Hfat, HweightGrams.
  destruct (Meal.findByIdAndUpdate _ _ _ _ _) as [[meal|e] d]; [|reflexivity].
  now destruct (ToBoolean meal).
Qed.

(** A negative amount stops [updateMeal] with that amount's message, as
    long as the amounts checked before it are not negative; the amounts
    after it are not looked at. *)
Lemma updateMeal_stops_at (rt : Runtime) (model : Meal.Model)
    (req : AuthRequest) (w : world model) (u : User)
    (props : list (string * value))
    (pre post : list (string * string)) (f msg : string) :
  user req = Some u ->
  body req = VObj props ->
  update_messages = pre ++ (f, msg) :: post ->
  Forall (fun g => not_negative rt (prop (fst g) props)) pre ->
  negative rt (prop f props) ->
  updateMeal rt model req w =
    (Ok tt, respond w 400 (envelope_error "Validation error" msg)).
Proof.
  intros Huser Hbody Hsplit Hpre Hneg.
  unfold not_negative, negative in *.
  run_handler. rewrite Huser, Hbody.
  rewrite !provided_negative_object.
  unfold update_messages in Hsplit.
  repeat (destruct pre as [|[g gm] pre];
          [ simplify_eq/=; now rewrite Hneg
          | let Hg := fresh "Hg" in
            apply Forall_cons in Hpre as [Hg Hpre]; simplify_eq/=;
            rewrite Hg; simpl ]).
Qed.

(** Where the comparisons evaluate and some amount is negative, there is a
    first negative amount in checking order. *)
Lemma first_negative_split (rt : Runtime) (props : list (string * value))
    (table : list (string * string)) :
  Forall (fun g => compares rt (prop (fst g) props)) table ->
  Exists (fun g => negative rt (prop (fst g) props)) table ->
  exists pre g post,
    table = pre ++ g :: post
    /\ Forall (fun g => not_negative rt (prop (fst g) props)) pre
    /\ negative rt (prop (fst g) props).
Proof.
  induction table as [|g table IH]; intros Hcmp Hneg.
  - inversion Hneg.
  - apply Forall_cons in Hcmp as [[b Hb] Hcmp].
    destruct b.
    + exists [], g, table. repeat split; [constructor|exact Hb].
    + apply Exists_cons in Hneg as [Hg|Hneg].
      * unfold negative in Hg. congruence.
      * destruct (IH Hcmp Hneg) as (pre & g' & post & -> & Hpre & Hg').
        exists (g :: pre), g', post. repeat split; [|exact Hg'].
        constructor; [exact Hb|exact Hpre].
Qed.

(** C2. An authenticated update whose body survives the five range checks:
    [updateMeal] makes one store call, [findByIdAndUpdate], whose update
    argument is the request body itself, so that every property of the
    body, [isCommon] and [createdBy] included, reaches the store as it
    came; and when the store resolves with a document, the response is 200
    with [{ success: true, data: document }]. *)
Theorem updateMeal_forwards_body (rt : Runtime) (model : Meal.Model)
    (req : AuthRequest) (w : world model) (u : User) :
  user req = Some u ->
  Forall (fun f => provided_negative rt (body req) f = Ok false) numeric_fields ->
  exists update,
    calls (snd (updateMeal rt model req w)) =
      calls w ++ [Meal.FindByIdAndUpdate (prop "id" (params req)) update
                    (VObj [("new", VBool true)])]
    /\ update = body req
    /\ (forall k, get_prop update k = get_prop (body req) k)
    /\ forall meal d,
         Meal.findByIdAndUpdate model (prop "id" (params req)) update
           (VObj [("new", VBool true)]) (store w) = (Ok meal, d) ->
         ToBoolean meal = true ->
         updateMeal rt model req w =
           (Ok tt,
            called w (Meal.FindByIdAndUpdate (prop "id" (params req)) update
                        (VObj [("new", VBool true)]))
              d 200 (VObj [("success", VBool true); ("data", meal)])).
Proof.
  intros Huser Hpass.
  exists (body req).
  rewrite (updateMeal_reaches_store rt model req w u Huser Hpass).
  repeat split.
  - destruct (Meal.findByIdAndUpdate _ _ _ _ _) as [[meal|e] d].
    + now destruct (ToBoolean meal).
    + now rewrite (proj1 (on_error_calls _ _ _ _)).
  - intros meal d -> ->. reflexivity.
Qed.

(** C5, as the code has it.  An authenticated update with an object body,
    on which the comparisons evaluate and some amount is present and
    negative: [updateMeal] answers 400 without calling the store, which
    stays as it was; the message is the one of the first negative amount
    in the order calories, carbs, protein, fat, weightGrams.  A negative
    [calories], being checked first, always gets its own message. *)
Theorem updateMeal_rejects_negative (rt : Runtime) (model : Meal.Model)
    (req : AuthRequest) (w : world model) (u : User)
    (props : list (string * value)) :
  user req = Some u ->
  body req = VObj props ->
  (Forall (fun f => compares rt (prop f props)) numeric_fields ->
   Exists (fun f => negative rt (prop f props)) numeric_fields ->
   exists pre f msg post w',
     update_messages = pre ++ (f, msg) :: post
     /\ Forall (fun g => not_negative rt (prop (fst g) props)) pre
     /\ negative rt (prop f props)
     /\ updateMeal rt model req w = (Ok tt, w')
     /\ sent w' = sent w ++
          [{| status := 400;
              json := VObj [("error", VStr "Validation error");
                            ("message", VStr msg)] |}]
     /\ calls w' = calls w
     /\ store w' = store w)
  /\ (negative rt (prop "calories" props) ->
      updateMeal rt model req w =
        (Ok tt, respond w 400 (VObj [("error", VStr "Validation error");
                                     ("message", VStr "Calories cannot be negative")]))).
Proof.
  intros Huser Hbody. split.
  - intros Hcmp Hneg.
    assert (Htable : forall P : string -> Prop,
               (Forall P numeric_fields ->
                Forall (fun g : string * string => P (fst g)) update_messages)
               /\ (Exists P numeric_fields ->
                   Exists (fun g : string * string => P (fst g)) update_messages)).
    { intros P. unfold numeric_fields, update_messages.
      rewrite ?Forall_cons, ?Exists_cons, !Forall_nil, !Exists_nil. simpl. tauto. }
    destruct (first_negative_split rt props update_messages)
      as (pre & [f msg] & post & Hsplit & Hpre & Hf).
    + now apply (Htable (fun f => compares rt (prop f props))).
    + now apply (Htable (fun f => negative rt (prop f props))).
    + exists pre, f, msg, post. eexists.
      split; [exact Hsplit|]. split; [exact Hpre|]. split; [exact Hf|].
      split; [exact (updateMeal_stops_at rt model req w u props pre post f msg
                       Huser Hbody Hsplit Hpre Hf)|].
      repeat split.
  - intros Hneg.
    apply (updateMeal_stops_at rt model req w u props []
             (tl update_messages) "calories" _ Huser Hbody eq_refl);
      [constructor|exact Hneg].
Qed.

(** C10. An authenticated update with an object body.  If an amount is
    negative and the amounts checked before it are not, the one response
    is 400 with that amount's message, whatever the amounts checked after
    it are (negative or not): with several negative amounts, the first in
    the order calories, carbs, protein, fat, weightGrams is reported.  And
    a body with none of the five properties, the empty body for one, goes
    through to the store update. *)
Theorem updateMeal_reports_first_negative (rt : Runtime) (model : Meal.Model)
    (req : AuthRequest) (w : world model) (u : User)
    (props : list (string * value)) :
  user req = Some u ->
  body req = VObj props ->
  (forall pre f msg post,
     update_messages = pre ++ (f, msg) :: post ->
     Forall (fun g => not_negative rt (prop (fst g) props)) pre ->
     negative rt (prop f props) ->
     exists w',
       updateMeal rt model req w = (Ok tt, w')
       /\ sent w' = sent w ++
            [{| status := 400;
                json := VObj [("error", VStr "Validation error");
                              ("message", VStr msg)] |}]
       /\ calls w' = calls w)
  /\ (Forall (fun f => own f props = None) numeric_fields ->
      calls (snd (updateMeal rt model req w)) =
        calls w ++ [Meal.FindByIdAndUpdate (prop "id" (params req)) (VObj props)
                      (VObj [("new", VBool true)])]).
Proof.
  intros Huser Hbody. split.
  - intros pre f msg post Hsplit Hpre Hneg. eexists.
    split; [exact (updateMeal_stops_at rt model req w u props pre post f msg
                     Huser Hbody Hsplit Hpre Hneg)|].
    split; reflexivity.
  - intros Habsent.
    rewrite (updateMeal_reaches_store rt model req w u Huser).
    + rewrite Hbody.
      destruct (Meal.findByIdAndUpdate _ _ _ _ _) as [[meal|e] d].
      * now destruct (ToBoolean meal).
      * now rewrite (proj1 (on_error_calls _ _ _ _)).
    + rewrite Hbody. eapply Forall_impl; [exact Habsent|].
      intros f Hf. rewrite provided_negative_object.
      unfold prop. now rewrite Hf.
Qed.

(* ===================================================================== *)
(** ** deleteMeal and getAllMeals *)
(* ===================================================================== *)

(** An authenticated [deleteMeal] is its store call followed by the answer
    that the store's outcome selects. *)
Lemma deleteMeal_reaches_store (model : Meal.Model)
    (req : AuthRequest) (w : world model) (u : User) :
  user req = Some u ->
  let c := Meal.FindByIdAndDelete (prop "id" (params req)) in
  deleteMeal model req w =
    match Meal.findByIdAndDelete model (prop "id" (params req)) (store w) with
    | (Ok meal, d) =>
        if ToBoolean meal
        then (Ok tt, called w c d 200 (envelope_message "Meal deleted successfully"))
        else (Ok tt, called w c d 404 not_found)
    | (Throw e, d) =>
        (Ok tt, called w c d 500
                  (envelope_error "Internal server error" "Failed to delete meal"))
    end.
Proof.
  intros Huser c. subst c.
  run_handler. rewrite Huser. simpl.
  destruct (Meal.findByIdAndDelete _ _ _) as [[meal|e] d]; [|reflexivity].
  now destruct (ToBoolean meal).
Qed.

(** An authenticated [getAllMeals] is its one query followed by the answer
    that the query's outcome selects. *)
Lemma getAllMeals_reaches_store (model : Meal.Model)
    (req : AuthRequest) (w : world model) (u : User) :
  user req = Some u ->
  let search := prop "search" (query req) in
  let filter :=
    if ToBoolean search then VObj [("$text", VObj [("$search", search)])] else VObj [] in
  let c := Meal.Find filter "createdBy" "name email" in
  getAllMeals model req w =
    match Meal.find model filter "createdBy" "name email" (store w) with
    | Ok meals => (Ok tt, called w c (store w) 200 (envelope_data meals))
    | Throw e =>
        (Ok tt, called w c (store w) 500
                  (envelope_error "Internal server error" "Failed to get meals"))
    end.
Proof.
  intros Huser search filter c. subst search filter c.
  run_handler. rewrite Huser. simpl.
  now destruct (Meal.find _ _ _ _ _).
Qed.

(** C6. An identifier that resolves to no Meal (the store resolves with
    [null]): an authenticated [updateMeal] whose body survives the range
    checks, and an authenticated [deleteMeal], each answer 404 with
    [{ error: 'Not found', message: 'Meal not found' }].  Deleting twice:
    when the first delete finds the document and the second, on the store
    the first one left, finds none, the first answer is 200 with
    'Meal deleted successfully' and the second is 404. *)
Theorem missing_meal_is_404 (rt : Runtime) (model : Meal.Model)
    (req : AuthRequest) (w : world model) (u : User) :
  user req = Some u ->
  let id := prop "id" (params req) in
  let gone := VObj [("error", VStr "Not found"); ("message", VStr "Meal not found")] in
  (Forall (fun f => provided_negative rt (body req) f = Ok false) numeric_fields ->
   forall d,
     Meal.findByIdAndUpdate model id (body req) (VObj [("new", VBool true)]) (store w)
       = (Ok VNull, d) ->
     updateMeal rt model req w =
       (Ok tt,
        called w (Meal.FindByIdAndUpdate id (body req) (VObj [("new", VBool true)]))
          d 404 gone))
  /\ (forall d,
        Meal.findByIdAndDelete model id (store w) = (Ok VNull, d) ->
        deleteMeal model req w = (Ok tt, called w (Meal.FindByIdAndDelete id) d 404 gone))
  /\ (forall doc d1 d2,
        Meal.findByIdAndDelete model id (store w) = (Ok doc, d1) ->
        ToBoolean doc = true ->
        Meal.findByIdAndDelete model id d1 = (Ok VNull, d2) ->
        let w1 := called w (Meal.FindByIdAndDelete id) d1 200
                    (VObj [("success", VBool true);
                           ("message", VStr "Meal deleted successfully")]) in
        deleteMeal model req w = (Ok tt, w1)
        /\ deleteMeal model req w1 =
             (Ok tt, called w1 (Meal.FindByIdAndDelete id) d2 404 gone)).
Proof.
  intros Huser id gone. subst id gone.
  split; [|split].
  - intros Hpass d Hstore.
    rewrite (updateMeal_reaches_store rt model req w u Huser Hpass).
    now rewrite Hstore.
  - intros d Hstore.
    rewrite (deleteMeal_reaches_store model req w u Huser). now rewrite Hstore.
  - intros doc d1 d2 Hfirst Hdoc Hsecond w1. subst w1. split.
    + rewrite (deleteMeal_reaches_store model req w u Huser).
      now rewrite Hfirst, Hdoc.
    + rewrite (deleteMeal_reaches_store model req _ u Huser). simpl.
      now rewrite Hsecond.
Qed.

(** C7. An authenticated list request makes one store call, the query
    [Meal.find(filter).populate('createdBy', 'name email')], and leaves the
    store as it was.  The filter is [{ $text: { $search: term } }] when the
    [search] parameter is a non-empty string [term], and [{}] when it is
    absent or empty.  Whenever the query resolves, with an empty list as
    with any other, the response is 200 with
    [{ success: true, data: meals }]. *)
Theorem getAllMeals_lists (model : Meal.Model)
    (req : AuthRequest) (w : world model) (u : User) :
  user req = Some u ->
  let search := prop "search" (query req) in
  exists filter,
    calls (snd (getAllMeals model req w)) =
      calls w ++ [Meal.Find filter "createdBy" "name email"]
    /\ Meal.is_read (Meal.Find filter "createdBy" "name email") = true
    /\ store (snd (getAllMeals model req w)) = store w
    /\ (forall term, search = VStr term -> term <> "" ->
        filter = VObj [("$text", VObj [("$search", VStr term)])])
    /\ (search = VUndefined \/ search = VStr "" -> filter = VObj [])
    /\ (forall meals,
          Meal.find model filter "createdBy" "name email" (store w) = Ok meals ->
          getAllMeals model req w =
            (Ok tt,
             called w (Meal.Find filter "createdBy" "name email") (store w) 200
               (VObj [("success", VBool true); ("data", meals)])))
    /\ (Meal.find model filter "createdBy" "name email" (store w) = Ok (VArr []) ->
        sent (snd (getAllMeals model req w)) =
          sent w ++ [{| status := 200;
                        json := VObj [("success", VBool true); ("data", VArr [])] |}]).
Proof.
  intros Huser search.
  rewrite (getAllMeals_reaches_store model req w u Huser). fold search.
  exists (if ToBoolean search
          then VObj [("$text", VObj [("$search", search)])]
          else VObj []).
  split; [now destruct (Meal.find _ _ _ _ _)|].
  split; [reflexivity|].
  split; [now destruct (Meal.find _ _ _ _ _)|].
  split; [|split; [|split]].
  - intros term Hs Hterm. rewrite Hs.
    now rewrite (proj2 (truthy_string term) Hterm).
  - now intros [-> | ->].
  - now intros meals ->.
  - now intros ->.
Qed.

(* ===================================================================== *)
(** ** Store failures *)
(* ===================================================================== *)

(** The catch clause on a thrown value whose [name] is 'ValidationError'. *)
Lemma on_error_validation (model : Meal.Model) (generic : string) (e : error)
    (w : world model) :
  get_prop e "name" = Ok (VStr "ValidationError") ->
  exists m,
    get_prop e "message" = Ok m
    /\ on_error model generic e w =
         (Ok tt,
          respond w 400
            (VObj [("error", VStr "Validation error");
                   ("message", if ToBoolean m then m else VStr "Validation error")])).
Proof.
  intros Hname.
  destruct (get_prop_defined e "message") as [m Hm].
  - intros ->. discriminate.
  - intros ->. discriminate.
  - exists m. split; [exact Hm|].
    unfold on_error, bind, lift, send, is_validation_error, message_or_default.
    rewrite Hname, Hm. reflexivity.
Qed.

(** The catch clause on any other thrown value that has properties. *)
Lemma on_error_other (model : Meal.Model) (generic : string) (e : error)
    (w : world model) :
  e <> VUndefined -> e <> VNull ->
  get_prop e "name" <> Ok (VStr "ValidationError") ->
  on_error model generic e w =
    (Ok tt, respond w 500 (envelope_error "Internal server error" generic)).
Proof.
  intros Hundef Hnull Hname.
  destruct (get_prop_defined e "name" Hundef Hnull) as [n Hn].
  unfold on_error, bind, lift, send, is_validation_error.
  rewrite Hn. cbn [rbind].
  destruct (strict_equals n "ValidationError") eqn:Heq; [|reflexivity].
  apply strict_equals_iff in Heq. subst n. contradiction.
Qed.

(** The catch clause on [undefined] and [null]: it throws, and sends
    nothing. *)
Lemma on_error_nullish (model : Meal.Model) (generic : string) (e : error)
    (w : world model) :
  e = VUndefined \/ e = VNull ->
  on_error model generic e w =
    (Throw (TypeError "Cannot read properties of undefined or null"), w).
Proof. now intros [-> | ->]. Qed.

(** C8, as the code has it.  When the store call of an authenticated
    [createMeal] or [updateMeal] rejects with a value other than
    [undefined] and [null]: if the value's [name] is 'ValidationError' the
    response is 400 and its message is the value's own [message] when that
    is truthy (a non-empty string for one), and the fixed text
    'Validation error' when there is no message or an empty one; for any
    other such value the response is 500 with the handler's fixed message.
    [getAllMeals] and [deleteMeal] answer 500 with their fixed message
    whatever is thrown. *)
Theorem store_failures_are_mapped (rt : Runtime) (model : Meal.Model)
    (req : AuthRequest) (w : world model) (u : User) :
  user req = Some u ->
  let id := prop "id" (params req) in
  let text (m : value) := if ToBoolean m then m else VStr "Validation error" in
  let invalid m :=
    VObj [("error", VStr "Validation error"); ("message", text m)] in
  let internal msg := VObj [("error", VStr "Internal server error"); ("message", VStr msg)] in
  (forall props e d,
     body req = VObj props ->
     ToBoolean (prop "name" props) = true ->
     Forall (fun f => is_undefined (prop f props) = false
                      /\ not_negative rt (prop f props)) numeric_fields ->
     Meal.create model (VObj (stamped props u)) (store w) = (Throw e, d) ->
     e <> VUndefined -> e <> VNull ->
     let c := Meal.Create (VObj (stamped props u)) in
     exists name message,
       get_prop e "name" = Ok name
       /\ get_prop e "message" = Ok message
       /\ (name = VStr "ValidationError" ->
           createMeal rt model req w = (Ok tt, called w c d 400 (invalid message)))
       /\ (name <> VStr "ValidationError" ->
           createMeal rt model req w =
             (Ok tt, called w c d 500 (internal "Failed to create meal"))))
  /\ (forall e d,
        Forall (fun f => provided_negative rt (body req) f = Ok false) numeric_fields ->
        Meal.findByIdAndUpdate model id (body req) (VObj [("new", VBool true)]) (store w)
          = (Throw e, d) ->
        e <> VUndefined -> e <> VNull ->
        let c := Meal.FindByIdAndUpdate id (body req) (VObj [("new", VBool true)]) in
        exists name message,
          get_prop e "name" = Ok name
          /\ get_prop e "message" = Ok message
          /\ (name = VStr "ValidationError" ->
              updateMeal rt model req w = (Ok tt, called w c d 400 (invalid message)))
          /\ (name <> VStr "ValidationError" ->
              updateMeal rt model req w =
                (Ok tt, called w c d 500 (internal "Failed to update meal"))))
  /\ (forall e,
        let filter :=
          if ToBoolean (prop "search" (query req))
          then VObj [("$text", VObj [("$search", prop "search" (query req))])]
          else VObj [] in
        Meal.find model filter "createdBy" "name email" (store w) = Throw e ->
        getAllMeals model req w =
          (Ok tt, called w (Meal.Find filter "createdBy" "name email") (store w) 500
                    (internal "Failed to get meals")))
  /\ (forall e d,
        Meal.findByIdAndDelete model id (store w) = (Throw e, d) ->
        deleteMeal model req w =
          (Ok tt, called w (Meal.FindByIdAndDelete id) d 500
                    (internal "Failed to delete meal")))
  /\ (forall s, s <> "" -> text (VStr s) = VStr s)
  /\ text VUndefined = VStr "Validation error"
  /\ text (VStr "") = VStr "Validation error".
Proof.
  intros Huser id text invalid internal.
  subst id text invalid internal.
  assert (Hmapped : forall generic e (w' : world model),
             e <> VUndefined -> e <> VNull ->
             exists name message,
               get_prop e "name" = Ok name
               /\ get_prop e "message" = Ok message
               /\ (name = VStr "ValidationError" ->
                   on_error model generic e w' =
                     (Ok tt,
                      respond w' 400
                        (VObj [("error", VStr "Validation error");
                               ("message",
                                if ToBoolean message then message
                                else VStr "Validation error")])))
               /\ (name <> VStr "ValidationError" ->
                   on_error model generic e w' =
                     (Ok tt,
                      respond w' 500 (envelope_error "Internal server error" generic)))).
  { intros generic e w' Hundef Hnull.
    destruct (get_prop_defined e "name" Hundef Hnull) as [n Hn].
    destruct (get_prop_defined e "message" Hundef Hnull) as [m Hm].
    exists n, m. split; [exact Hn|]. split; [exact Hm|]. split.
    - intros ->.
      destruct (on_error_validation model generic e w' Hn) as (m' & Hm' & Hrun).
      rewrite Hm in Hm'. injection Hm' as <-. exact Hrun.
    - intros Hne. apply on_error_other; try assumption.
      rewrite Hn. congruence. }
  split; [|split; [|split; [|split; [|split; [|split]]]]].
  - intros props e d Hbody Hname Hfields Hstore Hundef Hnull c. subst c.
    rewrite (createMeal_reaches_store rt model req w u props Huser Hbody Hname Hfields).
    rewrite Hstore.
    destruct (Hmapped "Failed to create meal" e
                (logged model (Meal.Create (VObj (stamped props u))) w d) Hundef Hnull)
      as (n & m & Hn & Hm & Hval & Hother).
    exists n, m. split; [exact Hn|]. split; [exact Hm|].
    split; intros H; [now rewrite (Hval H)|now rewrite (Hother H)].
  - intros e d Hpass Hstore Hundef Hnull c. subst c.
    rewrite (updateMeal_reaches_store rt model req w u Huser Hpass).
    rewrite Hstore.
    destruct (Hmapped "Failed to update meal" e
                (logged model
                   (Meal.FindByIdAndUpdate (prop "id" (params req)) (body req)
                      (VObj [("new", VBool true)])) w d) Hundef Hnull)
      as (n & m & Hn & Hm & Hval & Hother).
    exists n, m. split; [exact Hn|]. split; [exact Hm|].
    split; intros H; [now rewrite (Hval H)|now rewrite (Hother H)].
  - intros e filter Hstore. subst filter.
    rewrite (getAllMeals_reaches_store model req w u Huser).
    now rewrite Hstore.
  - intros e d Hstore.
    rewrite (deleteMeal_reaches_store model req w u Huser).
    now rewrite Hstore.
  - intros s Hs. now rewrite (proj2 (truthy_string s) Hs).
  - reflexivity.
  - reflexivity.
Qed.

(* ===================================================================== *)
(** ** The statements at work on sample requests *)
(* ===================================================================== *)

(** The in-memory store does what the double delete relies on: the first
    delete of a stored document resolves with it and removes it, the
    second resolves with [null]. *)
Lemma MemStore_delete_twice (k : string) (doc : value) (st : MemStore.state) :
  MemStore.docs st !! k = Some doc ->
  exists st',
    MemStore.findByIdAndDelete (VStr k) st = (Ok doc, st')
    /\ MemStore.docs st' = delete k (MemStore.docs st)
    /\ MemStore.findByIdAndDelete (VStr k) st' = (Ok VNull, st').
Proof.
  intros Hdoc. unfold MemStore.findByIdAndDelete. rewrite Hdoc.
  eexists. split; [reflexivity|]. split; [reflexivity|].
  simpl. now rewrite lookup_delete_eq.
Qed.

Lemma createMeal_stamps_valid_payload_witness :
  user (Sample.request (Some Sample.admin) [] "" (VObj Sample.forged)) = Some Sample.admin
  /\ body (Sample.request (Some Sample.admin) [] "" (VObj Sample.forged))
     = VObj Sample.forged
  /\ ToBoolean (prop "name" Sample.forged) = true
  /\ Forall (fun f => defined_nonneg IntRuntime.rt (prop f Sample.forged)) numeric_fields
  /\ exists doc,
       prop "isCommon" doc = VBool true
       /\ prop "createdBy" doc = VStr "64a0c0ffee"
       /\ calls (snd (createMeal IntRuntime.rt Sample.store
                        (Sample.request (Some Sample.admin) [] "" (VObj Sample.forged))
                        (init Sample.store MemStore.empty)))
          = [Meal.Create (VObj doc)].
Proof.
  assert (Hfields : Forall (fun f => defined_nonneg IntRuntime.rt (prop f Sample.forged))
                      numeric_fields)
    by (repeat constructor).
  repeat (split; [reflexivity || exact Hfields|]).
  destruct (createMeal_stamps_valid_payload IntRuntime.rt Sample.store
              (Sample.request (Some Sample.admin) [] "" (VObj Sample.forged))
              (init Sample.store MemStore.empty) Sample.admin Sample.forged
              eq_refl eq_refl eq_refl Hfields)
    as (doc & Hcommon & Hby & _ & Hcalls & _).
  exists doc. split; [exact Hcommon|]. split; [exact Hby|exact Hcalls].
Defined.

Lemma updateMeal_forwards_body_witness :
  let req :=
    Sample.request (Some Sample.admin) [] "1"
      (VObj [("fat", num 1); ("isCommon", VBool false);
             ("createdBy", VStr "someone-else")]) in
  user req = Some Sample.admin
  /\ Forall (fun f => provided_negative IntRuntime.rt (body req) f = Ok false)
       numeric_fields
  /\ exists update,
       calls (snd (updateMeal IntRuntime.rt Sample.store req
                     (init Sample.store Sample.with_rice)))
       = [Meal.FindByIdAndUpdate (VStr "1") update (VObj [("new", VBool true)])]
       /\ get_prop update "isCommon" = Ok (VBool false)
       /\ get_prop update "createdBy" = Ok (VStr "someone-else").
Proof.
  intros req.
  assert (Hpass : Forall (fun f => provided_negative IntRuntime.rt (body req) f = Ok false)
                    numeric_fields)
    by (repeat constructor).
  split; [reflexivity|]. split; [exact Hpass|].
  destruct (updateMeal_forwards_body IntRuntime.rt Sample.store req
              (init Sample.store Sample.with_rice) Sample.admin eq_refl Hpass)
    as (update & Hcalls & Hsame & Hprops & _).
  exists update. split; [exact Hcalls|].
  split; rewrite Hprops; reflexivity.
Defined.

Lemma createMeal_rejects_invalid_payload_witness :
  let req := Sample.request (Some Sample.admin) [] "" (VObj Sample.incomplete) in
  user req = Some Sample.admin
  /\ body req = VObj Sample.incomplete
  /\ createMeal IntRuntime.rt Sample.store req (init Sample.store MemStore.empty)
     = (Ok tt,
        respond (init Sample.store MemStore.empty) 400
          (VObj [("error", VStr "Validation error");
                 ("message", VStr required_message)])).
Proof.
  intros req. split; [reflexivity|]. split; [reflexivity|].
  destruct (createMeal_rejects_invalid_payload IntRuntime.rt Sample.store req
              (init Sample.store MemStore.empty) Sample.admin Sample.incomplete
              eq_refl eq_refl)
    as (_ & Hmissing & _).
  apply Hmissing. right.
  do 3 apply Exists_cons_tl. apply Exists_cons_hd. reflexivity.
Defined.

Lemma updateMeal_rejects_negative_witness :
  let req := Sample.request (Some Sample.admin) [] "1" (VObj [("calories", num (-1))]) in
  user req = Some Sample.admin
  /\ body req = VObj [("calories", num (-1))]
  /\ is_Some (MemStore.docs Sample.with_rice !! "1")
  /\ updateMeal IntRuntime.rt Sample.store req (init Sample.store Sample.with_rice)
     = (Ok tt,
        respond (init Sample.store Sample.with_rice) 400
          (VObj [("error", VStr "Validation error");
                 ("message", VStr "Calories cannot be negative")])).
Proof.
  intros req. split; [reflexivity|]. split; [reflexivity|].
  split; [eexists; vm_compute; reflexivity|].
  destruct (updateMeal_rejects_negative IntRuntime.rt Sample.store req
              (init Sample.store Sample.with_rice) Sample.admin
              [("calories", num (-1))] eq_refl eq_refl)
    as (_ & Hcalories).
  apply Hcalories. reflexivity.
Defined.

(** C5 as the spec words it fails on a body with two negative amounts:
    [carbs] is present and negative, yet the one response carries the
    message for [calories], not the one for [carbs]. *)
Lemma updateMeal_second_negative_unreported :
  let req := Sample.request (Some Sample.admin) [] "1" (VObj Sample.two_negatives) in
  let answers :=
    sent (snd (updateMeal IntRuntime.rt Sample.store req
                 (init Sample.store Sample.with_rice))) in
  prop "carbs" Sample.two_negatives = num (-1)
  /\ negative IntRuntime.rt (prop "carbs" Sample.two_negatives)
  /\ answers = [{| status := 400;
                   json := VObj [("error", VStr "Validation error");
                                 ("message", VStr "Calories cannot be negative")] |}]
  /\ answers <> [{| status := 400;
                    json := VObj [("error", VStr "Validation error");
                                  ("message", VStr "Carbs cannot be negative")] |}].
Proof.
  intros req answers. subst req answers.
  split; [reflexivity|]. split; [reflexivity|].
  split; [reflexivity|]. vm_compute. discriminate.
Qed.

Lemma missing_meal_is_404_witness :
  let req := Sample.request (Some Sample.admin) [] "1" (VObj []) in
  user req = Some Sample.admin
  /\ exists w1,
       deleteMeal Sample.store req (init Sample.store Sample.with_rice) = (Ok tt, w1)
       /\ status <$> sent w1 = [200]
       /\ MemStore.docs (store w1) !! "1" = None
       /\ status <$> sent (snd (deleteMeal Sample.store req w1)) = [200; 404].
Proof.
  intros req. split; [reflexivity|].
  destruct (missing_meal_is_404 IntRuntime.rt Sample.store req
              (init Sample.store Sample.with_rice) Sample.admin eq_refl)
    as (_ & _ & Htwice).
  destruct (MemStore_delete_twice "1"
              Sample.stored_rice Sample.with_rice)
    as (st' & Hfirst & Hdocs & Hsecond); [vm_compute; reflexivity|].
  destruct (Htwice _ _ _ Hfirst eq_refl Hsecond) as [Hone Htwo].
  eexists. split; [exact Hone|].
  split; [reflexivity|].
  split; [simpl; rewrite Hdocs; apply lookup_delete_eq|].
  rewrite Htwo. reflexivity.
Defined.

Lemma getAllMeals_lists_witness :
  let req := Sample.request (Some Sample.admin) [("search", VStr "Rice")] "" (VObj []) in
  user req = Some Sample.admin
  /\ getAllMeals Sample.store req (init Sample.store Sample.with_rice)
     = (Ok tt,
        called (init Sample.store Sample.with_rice)
          (Meal.Find (VObj [("$text", VObj [("$search", VStr "Rice")])])
             "createdBy" "name email")
          Sample.with_rice 200
          (VObj [("success", VBool true); ("data", VArr [Sample.stored_rice])])).
Proof.
  intros req. split; [reflexivity|].
  destruct (getAllMeals_lists Sample.store req
              (init Sample.store Sample.with_rice) Sample.admin eq_refl)
    as (filter & _ & _ & _ & Htext & _ & Hfound & _).
  rewrite (Htext "Rice" eq_refl ltac:(discriminate)) in Hfound.
  apply Hfound. vm_compute. reflexivity.
Defined.

Lemma store_failures_are_mapped_witness :
  let req := Sample.request (Some Sample.admin) [] "" (VObj Sample.rice) in
  user req = Some Sample.admin
  /\ createMeal IntRuntime.rt (Rejecting.model Sample.blank_validation_error) req
       (init (Rejecting.model Sample.blank_validation_error) tt)
     = (Ok tt,
        called (init (Rejecting.model Sample.blank_validation_error) tt)
          (Meal.Create (VObj (stamped Sample.rice Sample.admin))) tt 400
          (VObj [("error", VStr "Validation error");
                 ("message", VStr "Validation error")])).
Proof.
  intros req. split; [reflexivity|].
  destruct (store_failures_are_mapped IntRuntime.rt
              (Rejecting.model Sample.blank_validation_error) req
              (init (Rejecting.model Sample.blank_validation_error) tt)
              Sample.admin eq_refl)
    as (Hcreate & _).
  destruct (Hcreate Sample.rice Sample.blank_validation_error tt eq_refl eq_refl)
    as (n & m & Hn & Hm & Hinvalid & _);
    [repeat constructor|reflexivity|discriminate|discriminate|].
  injection Hn as <-. injection Hm as <-.
  apply Hinvalid. reflexivity.
Defined.

(** C8 as the spec words it fails on a validation error whose message is
    empty: the response is 400, but its message is the fixed text
    'Validation error', not the error's own (empty) message. *)
Lemma createMeal_blank_validation_message :
  let e := Sample.blank_validation_error in
  let req := Sample.request (Some Sample.admin) [] "" (VObj Sample.rice) in
  let answers :=
    sent (snd (createMeal IntRuntime.rt (Rejecting.model e) req
                 (init (Rejecting.model e) tt))) in
  get_prop e "name" = Ok (VStr "ValidationError")
  /\ get_prop e "message" = Ok (VStr "")
  /\ Meal.create (Rejecting.model e) (VObj (stamped Sample.rice Sample.admin)) tt
     = (Throw e, tt)
  /\ answers = [{| status := 400;
                   json := VObj [("error", VStr "Validation error");
                                 ("message", VStr "Validation error")] |}]
  /\ answers <> [{| status := 400;
                    json := VObj [("error", VStr "Validation error");
                                  ("message", VStr "")] |}].
Proof.
  intros e req answers. subst e req answers.
  repeat (split; [reflexivity|]). vm_compute. discriminate.
Qed.

Lemma updateMeal_reports_first_negative_witness :
  let req := Sample.request (Some Sample.admin) [] "1" (VObj Sample.two_negatives) in
  let quiet := Sample.request (Some Sample.admin) [] "1" (VObj []) in
  (user req = Some Sample.admin /\ body req = VObj Sample.two_negatives)
  /\ (user quiet = Some Sample.admin /\ body quiet = VObj [])
  /\ (exists w',
        updateMeal IntRuntime.rt Sample.store req (init Sample.store Sample.with_rice)
          = (Ok tt, w')
        /\ sent w' = [{| status := 400;
                         json := VObj [("error", VStr "Validation error");
                                       ("message", VStr "Calories cannot be negative")] |}])
  /\ calls (snd (updateMeal IntRuntime.rt Sample.store quiet
                   (init Sample.store Sample.with_rice)))
     = [Meal.FindByIdAndUpdate (VStr "1") (VObj []) (VObj [("new", VBool true)])].
Proof.
  intros req quiet.
  split; [split; reflexivity|]. split; [split; reflexivity|].
  split.
  - destruct (updateMeal_reports_first_negative IntRuntime.rt Sample.store req
                (init Sample.store Sample.with_rice) Sample.admin Sample.two_negatives
                eq_refl eq_refl)
      as (Hfirst & _).
    destruct (Hfirst [] "calories" "Calories cannot be negative" (tl update_messages)
                eq_refl ltac:(constructor) eq_refl)
      as (w' & Hrun & Hsent & _).
    exists w'. split; [exact Hrun|exact Hsent].
  - destruct (updateMeal_reports_first_negative IntRuntime.rt Sample.store quiet
                (init Sample.store Sample.with_rice) Sample.admin [] eq_refl eq_refl)
      as (_ & Hquiet).
    apply Hquiet. repeat constructor.
Defined.

(* ===================================================================== *)
(** ** What a comparison can throw *)
(* ===================================================================== *)

(** Induction on values that reaches inside arrays and objects. *)
Lemma value_nested_ind (P : value -> Prop) :
  P VUndefined -> P VNull -> (forall b, P (VBool b)) -> (forall n, P (VNum n)) ->
  (forall s, P (VStr s)) ->
  (forall elems, Forall P elems -> P (VArr elems)) ->
  (forall props, Forall (fun kv => P (snd kv)) props -> P (VObj props)) ->
  forall v, P v.
Proof.
  intros Hundef Hnull Hbool Hnum Hstr Harr Hobj.
  fix IH 1. intros v. destruct v as [| |b|n|s|elems|props].
  - exact Hundef.
  - exact Hnull.
  - apply Hbool.
  - apply Hnum.
  - apply Hstr.
  - apply Harr. induction elems as [|x rest IHrest]; constructor; [apply IH|exact IHrest].
  - apply Hobj. induction props as [|[k x] rest IHrest]; constructor;
      [apply IH|exact IHrest].
Qed.

(** Array.prototype.join, one element at a time. *)
Lemma ToString_array_cons (rt : Runtime) (x : value) (rest : list value) :
  ToString rt (VArr (x :: rest)) =
    rbind (match x with
           | VUndefined | VNull => Ok ""
           | _ => ToString rt x
           end)
      (fun s =>
         match rest with
         | [] => Ok s
         | _ :: _ => rbind (ToString rt (VArr rest)) (fun t => Ok (s +:+ "," +:+ t))
         end).
Proof. destruct rest; reflexivity. Qed.

(** The conversions throw nothing but TypeErrors. *)
Lemma ToString_throws_TypeError (rt : Runtime) (v : value) :
  forall e : error, ToString rt v = Throw e -> exists msg, e = TypeError msg.
Proof.
  induction v as [| |b|n|s|elems IHelems|props _] using value_nested_ind;
    try (intros e; discriminate).
  - intros e. destruct b; discriminate.
  - induction IHelems as [|x rest Hx _ IHrest]; [intros e; discriminate|].
    intros e. rewrite ToString_array_cons.
    destruct (match x with VUndefined | VNull => Ok "" | _ => ToString rt x end)
      as [sx|ex] eqn:Helem; cbn [rbind].
    + destruct rest as [|y rest']; [discriminate|].
      destruct (ToString rt (VArr (y :: rest'))) as [sr|er] eqn:Hr; cbn [rbind];
        [discriminate|].
      intros H. injection H as <-. apply IHrest. reflexivity.
    + intros H. injection H as <-.
      destruct x; try discriminate; apply (Hx _ Helem).
  - intros e. simpl. destruct (own "toString" props); [|discriminate].
    intros H. injection H as <-. eexists. reflexivity.
Qed.

Lemma lt_zero_throws_TypeError (rt : Runtime) (v : value) (e : error) :
  lt_zero rt v = Throw e -> exists msg, e = TypeError msg.
Proof.
  unfold lt_zero.
  destruct (ToNumber rt v) as [n|e'] eqn:Hn; cbn [rbind]; [discriminate|].
  intros H. injection H as <-.
  unfold ToNumber in Hn.
  destruct v as [| |b|n|s|elems|props]; try discriminate.
  - destruct b; discriminate.
  - destruct (ToString rt (VArr elems)) as [s|e''] eqn:Hs; cbn [rbind] in Hn;
      [discriminate|].
    injection Hn as <-. exact (ToString_throws_TypeError rt _ _ Hs).
  - destruct (ToString rt (VObj props)) as [s|e''] eqn:Hs; cbn [rbind] in Hn;
      [discriminate|].
    injection Hn as <-. exact (ToString_throws_TypeError rt _ _ Hs).
Qed.

(* ===================================================================== *)
(** ** What the handlers do on every request *)
(* ===================================================================== *)

(** One step of running a handler symbolically: compute what is known,
    split on what is not. *)
Ltac step :=
  match goal with
  | H : lt_zero ?rt ?v = Throw ?e |- _ =>
      is_var e;
      let msg := fresh "msg" in
      let Hmsg := fresh "Hmsg" in
      destruct (lt_zero_throws_TypeError rt v e H) as [msg Hmsg]; subst e
  | |- context [ToBoolean VUndefined] => change (ToBoolean VUndefined) with false
  | |- context [is_undefined VUndefined] => change (is_undefined VUndefined) with true
  | |- context [Meal.find ?m ?f ?p ?s ?d] =>
      destruct (Meal.find m f p s d) as [?|?] eqn:?
  | |- context [Meal.create ?m ?x ?d] =>
      destruct (Meal.create m x d) as [[?|?] ?] eqn:?
  | |- context [Meal.findByIdAndUpdate ?m ?i ?x ?o ?d] =>
      destruct (Meal.findByIdAndUpdate m i x o d) as [[?|?] ?] eqn:?
  | |- context [Meal.findByIdAndDelete ?m ?i ?d] =>
      destruct (Meal.findByIdAndDelete m i d) as [[?|?] ?] eqn:?
  | |- context [is_validation_error ?e] =>
      unfold is_validation_error, message_or_default; destruct e
  | |- context [match or_else (lt_zero ?rt ?v) _ with Ok _ => _ | Throw _ => _ end] =>
      destruct (lt_zero rt v) as [[]|?] eqn:?
  | |- context [match ?x with Ok _ => _ | Throw _ => _ end] =>
      destruct x as [?|?] eqn:?
  | |- context [if ?c then _ else _] => destruct c eqn:?
  end; simpl.

Ltac explore :=
  run_handler;
  match goal with
  | |- context [user ?req] => destruct (user req) eqn:?
  end; simpl;
  try match goal with
      | |- context [body ?req] => destruct (body req) eqn:?
      end; simpl;
  rewrite ?provided_negative_object;
  repeat step.

(** X4. Whatever the request, [getAllMeals], [updateMeal] and [deleteMeal]
    call the store at most once and only with their own operation: the
    populated [find], [findByIdAndUpdate] on the path identifier and the
    body with [{ new: true }], [findByIdAndDelete] on the path identifier.
    [getAllMeals] never changes the store; the other two change it only
    through that one call. *)
Theorem handlers_call_discipline (rt : Runtime) (model : Meal.Model)
    (req : AuthRequest) (w : world model) :
  ((calls (snd (getAllMeals model req w)) = calls w
    \/ exists filter,
         calls (snd (getAllMeals model req w))
         = calls w ++ [Meal.Find filter "createdBy" "name email"])
   /\ store (snd (getAllMeals model req w)) = store w)
  /\ ((calls (snd (updateMeal rt model req w)) = calls w
       /\ store (snd (updateMeal rt model req w)) = store w)
      \/ calls (snd (updateMeal rt model req w))
         = calls w ++ [Meal.FindByIdAndUpdate (prop "id" (params req)) (body req)
                         (VObj [("new", VBool true)])])
  /\ ((calls (snd (deleteMeal model req w)) = calls w
       /\ store (snd (deleteMeal model req w)) = store w)
      \/ calls (snd (deleteMeal model req w))
         = calls w ++ [Meal.FindByIdAndDelete (prop "id" (params req))]).
Proof.
  split; [|split].
  - explore; (split; [|reflexivity]); eauto.
  - explore; auto.
  - explore; auto.
Qed.

Lemma app_one_neq {A} (l : list A) (x : A) : l <> l ++ [x].
Proof.
  intros H. apply (f_equal length) in H. rewrite length_app in H. simpl in H. lia.
Qed.

(** What [create_accepts] says about the two conditions of [createMeal]. *)
Lemma create_accepts_checks (rt : Runtime) (props : list (string * value)) :
  create_accepts rt props ->
  (negb (ToBoolean (prop "name" props))
   || is_undefined (prop "calories" props)
   || is_undefined (prop "carbs" props)
   || is_undefined (prop "protein" props)
   || is_undefined (prop "fat" props)
   || is_undefined (prop "weightGrams" props)) = false
  /\ lt_zero rt (prop "calories" props) = Ok false
  /\ lt_zero rt (prop "carbs" props) = Ok false
  /\ lt_zero rt (prop "protein" props) = Ok false
  /\ lt_zero rt (prop "fat" props) = Ok false
  /\ lt_zero rt (prop "weightGrams" props) = Ok false.
Proof.
  intros [Hname Hfields]. split_fields Hfields.
  destruct Hcalories as [-> ?], Hcarbs as [-> ?], Hprotein as [-> ?],
    Hfat as [-> ?], HweightGrams as [-> ?].
  rewrite Hname. repeat split; assumption.
Qed.

(** X1. An authenticated create request with an object body reaches the
    store exactly when the body has a truthy [name] and five amounts that
    are not [undefined] and on which [< 0] is false: then the one call is
    [Meal.create] on the stamped document; in every other case no call is
    made and the store stays as it was. *)
Theorem createMeal_reaches_store_iff (rt : Runtime) (model : Meal.Model)
    (req : AuthRequest) (w : world model) (u : User)
    (props : list (string * value)) :
  user req = Some u ->
  body req = VObj props ->
  (create_accepts rt props
   /\ calls (snd (createMeal rt model req w))
      = calls w ++ [Meal.Create (VObj (stamped props u))])
  \/ (~ create_accepts rt props
      /\ calls (snd (createMeal rt model req w)) = calls w
      /\ store (snd (createMeal rt model req w)) = store w).
Proof.
  intros Huser Hbody.
  run_handler. rewrite Huser, Hbody. simpl.
  repeat step;
    try (right; split; [|split; reflexivity];
         intros Hacc; apply create_accepts_checks in Hacc;
         destruct Hacc as (? & ? & ? & ? & ? & ?); congruence);
    left; (split; [|reflexivity]);
    repeat match goal with
           | H : (_ || _) = false |- _ => apply orb_false_iff in H as [? ?]
           | H : negb _ = false |- _ => apply negb_false_iff in H
           end;
    (split; [assumption|]); repeat constructor; assumption.
Qed.

(** X3. Whatever the request, a store call by [createMeal] is one
    [Meal.create] on a document with exactly the ten keys name,
    description, image, calories, carbs, protein, fat, weightGrams,
    isCommon, createdBy, with [isCommon] true and [createdBy] the caller's
    [_id]: no other property of the body reaches the store.  Without such
    a call the store stays as it was. *)
Theorem createMeal_whitelists (rt : Runtime) (model : Meal.Model)
    (req : AuthRequest) (w : world model) :
  (calls (snd (createMeal rt model req w)) = calls w
   /\ store (snd (createMeal rt model req w)) = store w)
  \/ exists u doc,
       user req = Some u
       /\ calls (snd (createMeal rt model req w)) = calls w ++ [Meal.Create (VObj doc)]
       /\ List.map fst doc = created_keys
       /\ prop "isCommon" doc = VBool true
       /\ prop "createdBy" doc = _id u
       /\ Forall (fun k => get_prop (body req) k = Ok (prop k doc))
            ["name"; "description"; "image"; "calories"; "carbs"; "protein";
             "fat"; "weightGrams"].
Proof.
  explore; auto;
    right; do 2 eexists; (split; [reflexivity|]); (split; [reflexivity|]);
    repeat split; repeat constructor.
Qed.

Ltac one_answer tac :=
  explore; eexists; (split; [reflexivity|]); simpl; tac.

(** X5. Whatever the request and the store, no handler answers twice, and
    a response has a status from the handler's own set: [getAllMeals] 200,
    401 or 500; [createMeal] 201, 400, 401 or 500; [updateMeal] 200, 400,
    401, 404 or 500; [deleteMeal] 200, 401, 404 or 500.  [getAllMeals] and
    [deleteMeal] always return having answered once.  So do [createMeal]
    and [updateMeal], with one exception: when their store call rejects
    with [undefined] or [null], the catch clause throws a TypeError, which
    leaves the handler, and nothing is sent. *)
Theorem handler_status_sets (rt : Runtime) (model : Meal.Model)
    (req : AuthRequest) (w : world model) :
  let escaped := Throw (TypeError "Cannot read properties of undefined or null") in
  (fst (getAllMeals model req w) = Ok tt
   /\ exists r, sent (snd (getAllMeals model req w)) = sent w ++ [r]
                /\ In (status r) [200; 401; 500])
  /\ ((fst (createMeal rt model req w) = Ok tt
       /\ exists r, sent (snd (createMeal rt model req w)) = sent w ++ [r]
                    /\ In (status r) [201; 400; 401; 500])
      \/ (exists doc e d,
            Meal.create model doc (store w) = (Throw e, d)
            /\ (e = VUndefined \/ e = VNull)
            /\ fst (createMeal rt model req w) = escaped
            /\ sent (snd (createMeal rt model req w)) = sent w))
  /\ ((fst (updateMeal rt model req w) = Ok tt
       /\ exists r, sent (snd (updateMeal rt model req w)) = sent w ++ [r]
                    /\ In (status r) [200; 400; 401; 404; 500])
      \/ (exists e d,
            Meal.findByIdAndUpdate model (prop "id" (params req)) (body req)
              (VObj [("new", VBool true)]) (store w) = (Throw e, d)
            /\ (e = VUndefined \/ e = VNull)
            /\ fst (updateMeal rt model req w) = escaped
            /\ sent (snd (updateMeal rt model req w)) = sent w))
  /\ (fst (deleteMeal model req w) = Ok tt
      /\ exists r, sent (snd (deleteMeal model req w)) = sent w ++ [r]
                   /\ In (status r) [200; 401; 404; 500]).
Proof.
  intros escaped. subst escaped.
  split; [|split; [|split]].
  - explore; (split; [reflexivity|]); eexists; (split; [reflexivity|]); simpl; tauto.
  - explore;
      first [ left; (split; [reflexivity|]); eexists; (split; [reflexivity|]);
              simpl; tauto
            | right; do 3 eexists; (split; [eassumption|]);
              (split; [tauto|]); split; reflexivity ].
  - explore; simplify_eq;
      first [ left; (split; [reflexivity|]); eexists; (split; [reflexivity|]);
              simpl; tauto
            | right; do 2 eexists; (split; [reflexivity|]);
              (split; [tauto|]); split; reflexivity ].
  - explore; (split; [reflexivity|]); eexists; (split; [reflexivity|]); simpl; tauto.
Qed.

(** The responses a run has added, split off from those that were there. *)
Ltac added_responses :=
  first [ eexists; split; [reflexivity|]
        | exists []; split; [symmetry; apply app_nil_r|] ].

(** X6. A 401 is what a handler sends exactly when the request carries no
    caller identity: with an identity attached, none of the four ever
    sends a 401, whatever the body and the store do; without one, each
    sends it. *)
Theorem status_401_iff_anonymous (rt : Runtime) (model : Meal.Model)
    (req : AuthRequest) (w : world model) :
  Forall
    (fun handler : M model unit =>
       exists rs, sent (snd (handler w)) = sent w ++ rs
                  /\ (In 401 (List.map status rs) <-> user req = None))
    [getAllMeals model req; createMeal rt model req;
     updateMeal rt model req; deleteMeal model req].
Proof.
  repeat apply List.Forall_cons; try apply List.Forall_nil;
    explore; added_responses; simpl;
    (split;
     [ intros Hin; first [ reflexivity
                         | destruct Hin as [Hin | []]; discriminate Hin
                         | contradiction ]
     | intros Hnone; first [ left; reflexivity | discriminate Hnone ] ]).
Qed.


(* ===================================================================== *)
(** ** Bodies and amounts off the beaten track *)
(* ===================================================================== *)

(** An object with an own [toString] property cannot be compared. *)
Lemma lt_zero_object_throws (rt : Runtime) (props : list (string * value)) (x : value) :
  own "toString" props = Some x -> exists e, lt_zero rt (VObj props) = Throw e.
Proof.
  intros H. unfold lt_zero, ToNumber, ToString. rewrite H. cbn [rbind]. eauto.
Qed.

Lemma TypeError_is_not_validation (e : error) :
  (exists msg, e = TypeError msg) -> is_validation_error e = Ok false.
Proof. now intros [msg ->]. Qed.

(** X9. An amount on which [< 0] throws (an object that has a [toString]
    property of its own is one) is answered 500, not 400, and the store is
    not called: in [updateMeal] when the amounts checked before it are not
    negative, in [createMeal] when moreover nothing is missing. *)
Theorem uncomparable_amount_is_500 (rt : Runtime) (model : Meal.Model)
    (req : AuthRequest) (w : world model) (u : User)
    (props : list (string * value)) :
  user req = Some u ->
  body req = VObj props ->
  (forall pre f msg post e,
     update_messages = pre ++ (f, msg) :: post ->
     Forall (fun g => not_negative rt (prop (fst g) props)) pre ->
     lt_zero rt (prop f props) = Throw e ->
     updateMeal rt model req w =
       (Ok tt, respond w 500 (VObj [("error", VStr "Internal server error");
                                    ("message", VStr "Failed to update meal")])))
  /\ (forall pre f post e,
        ToBoolean (prop "name" props) = true ->
        Forall (fun g => prop g props <> VUndefined) numeric_fields ->
        numeric_fields = pre ++ f :: post ->
        Forall (fun g => not_negative rt (prop g props)) pre ->
        lt_zero rt (prop f props) = Throw e ->
        createMeal rt model req w =
          (Ok tt, respond w 500 (VObj [("error", VStr "Internal server error");
                                       ("message", VStr "Failed to create meal")])))
  /\ (forall f o x,
        prop f props = VObj o -> own "toString" o = Some x ->
        exists e, lt_zero rt (prop f props) = Throw e).
Proof.
  intros Huser Hbody. split; [|split].
  - intros pre f msg post e Hsplit Hpre Hthrow.
    pose proof (TypeError_is_not_validation e (lt_zero_throws_TypeError rt _ e Hthrow))
      as Hkind.
    unfold not_negative in *.
    run_handler. rewrite Huser, Hbody.
    rewrite !provided_negative_object.
    unfold update_messages in Hsplit.
    repeat (destruct pre as [|[g gm] pre];
            [ simplify_eq/=; rewrite Hthrow; simpl; now rewrite Hkind
            | let Hg := fresh "Hg" in
              apply Forall_cons in Hpre as [Hg Hpre]; simplify_eq/=;
              rewrite Hg; simpl ]).
  - intros pre f post e Hname Hdef Hsplit Hpre Hthrow.
    pose proof (TypeError_is_not_validation e (lt_zero_throws_TypeError rt _ e Hthrow))
      as Hkind.
    unfold not_negative in *.
    run_handler. rewrite Huser, Hbody. simpl.
    rewrite Hname. simpl.
    split_fields Hdef.
    repeat match goal with
           | H : prop _ _ <> VUndefined |- _ =>
               rewrite <- is_undefined_true in H; apply not_true_is_false in H;
               rewrite H; clear H
           end.
    simpl. unfold numeric_fields in Hsplit.
    repeat (destruct pre as [|g pre];
            [ simplify_eq/=; rewrite Hthrow; simpl; now rewrite Hkind
            | let Hg := fresh "Hg" in
              apply Forall_cons in Hpre as [Hg Hpre]; simplify_eq/=;
              rewrite Hg; simpl ]).
  - intros f o x -> Hown. exact (lt_zero_object_throws rt o x Hown).
Qed.

(** X2. The presence check of [createMeal] is [=== undefined] and its range
    check is [< 0]: amounts that are [null], NaN or booleans are not
    [undefined] and do not compare below zero, so an authenticated body
    with a truthy [name] and such amounts is handed to [Meal.create]. *)
Theorem createMeal_lets_non_numbers_through (rt : Runtime) (model : Meal.Model)
    (req : AuthRequest) (w : world model) (u : User)
    (props : list (string * value)) :
  user req = Some u ->
  body req = VObj props ->
  ToBoolean (prop "name" props) = true ->
  Forall (fun f => present_non_number (prop f props)) numeric_fields ->
  calls (snd (createMeal rt model req w))
  = calls w ++ [Meal.Create (VObj (stamped props u))].
Proof.
  intros Huser Hbody Hname Hodd.
  rewrite (createMeal_reaches_store rt model req w u props Huser Hbody Hname).
  - destruct (Meal.create _ _ _) as [[meal|e] d]; [reflexivity|].
    now rewrite (proj1 (on_error_calls _ _ _ _)).
  - eapply Forall_impl; [exact Hodd|].
    intros f [-> | [-> | [[] ->]]]; split; reflexivity.
Qed.

(** X8. Bodies that are not objects.  With no body at all ([undefined] or
    [null]) an authenticated [createMeal] or [updateMeal] answers 500
    without calling the store.  With a boolean, a number, a string or an
    array for a body, [createMeal] answers 400 with the required-fields
    message, and [updateMeal] passes its checks and hands the body to
    [findByIdAndUpdate] as it is. *)
Theorem bodies_that_are_not_objects (rt : Runtime) (model : Meal.Model)
    (req : AuthRequest) (w : world model) (u : User) :
  user req = Some u ->
  (body req = VUndefined \/ body req = VNull ->
   createMeal rt model req w =
     (Ok tt, respond w 500 (VObj [("error", VStr "Internal server error");
                                  ("message", VStr "Failed to create meal")]))
   /\ updateMeal rt model req w =
        (Ok tt, respond w 500 (VObj [("error", VStr "Internal server error");
                                     ("message", VStr "Failed to update meal")])))
  /\ (scalar_or_array (body req) ->
      createMeal rt model req w =
        (Ok tt, respond w 400 (VObj [("error", VStr "Validation error");
                                     ("message", VStr required_message)]))
      /\ calls (snd (updateMeal rt model req w))
         = calls w ++ [Meal.FindByIdAndUpdate (prop "id" (params req)) (body req)
                         (VObj [("new", VBool true)])]).
Proof.
  intros Huser. split.
  - intros [Hbody | Hbody]; split; run_handler; now rewrite Huser, Hbody.
  - intros Hbody. split.
    + run_handler. rewrite Huser.
      destruct (body req); try contradiction; reflexivity.
    + rewrite (updateMeal_reaches_store rt model req w u Huser).
      * destruct (Meal.findByIdAndUpdate _ _ _ _ _) as [[meal|e] d].
        -- now destruct (ToBoolean meal).
        -- now rewrite (proj1 (on_error_calls _ _ _ _)).
      * destruct (body req); try contradiction; repeat constructor.
Qed.

(* ===================================================================== *)
(** ** What the handlers do not look at *)
(* ===================================================================== *)

(** X10. The handlers make no difference between callers: with some
    identity attached, [getAllMeals] depends on the [search] parameter
    only, [deleteMeal] on the path identifier only, and [updateMeal] on
    the path identifier and the body only.  Two requests that agree on
    those get the same outcome from the same world, whoever sent them. *)
Theorem handlers_ignore_who_asks (rt : Runtime) (model : Meal.Model)
    (req req' : AuthRequest) (w : world model) :
  is_Some (user req) ->
  is_Some (user req') ->
  (prop "search" (query req) = prop "search" (query req') ->
   getAllMeals model req w = getAllMeals model req' w)
  /\ (prop "id" (params req) = prop "id" (params req') ->
      body req = body req' ->
      updateMeal rt model req w = updateMeal rt model req' w)
  /\ (prop "id" (params req) = prop "id" (params req') ->
      deleteMeal model req w = deleteMeal model req' w).
Proof.
  intros [u Hu] [u' Hu']. split; [|split].
  - intros Hsearch. run_handler. now rewrite Hu, Hu', Hsearch.
  - intros Hid Hbody. run_handler. now rewrite Hu, Hu', Hid, Hbody.
  - intros Hid. run_handler. now rewrite Hu, Hu', Hid.
Qed.

(** X11. The checks of [updateMeal] read the five amounts and nothing
    else.  Two authenticated updates whose object bodies agree on the five
    amounts fare alike: either both are answered without a store call, and
    then with the same response, or both reach the store, each with its
    own body.  The name, description, image, [isCommon] and [createdBy]
    of an update are never examined. *)
Theorem updateMeal_checks_only_amounts (rt : Runtime) (model : Meal.Model)
    (req req' : AuthRequest) (w : world model) (u u' : User)
    (props props' : list (string * value)) :
  user req = Some u ->
  user req' = Some u' ->
  body req = VObj props ->
  body req' = VObj props' ->
  Forall (fun f => prop f props = prop f props') numeric_fields ->
  (calls (snd (updateMeal rt model req w)) = calls w
   /\ updateMeal rt model req w = updateMeal rt model req' w)
  \/ (calls (snd (updateMeal rt model req w))
      = calls w ++ [Meal.FindByIdAndUpdate (prop "id" (params req)) (VObj props)
                      (VObj [("new", VBool true)])]
      /\ calls (snd (updateMeal rt model req' w))
         = calls w ++ [Meal.FindByIdAndUpdate (prop "id" (params req')) (VObj props')
                         (VObj [("new", VBool true)])]).
Proof.
  intros Hu Hu' Hbody Hbody' Hsame.
  split_fields Hsame.
  run_handler. rewrite Hu, Hu', Hbody, Hbody'.
  rewrite !provided_negative_object.
  rewrite <- Hcalories, <- Hcarbs, <- Hprotein, <- Hfat, <- HweightGrams.
  simpl. repeat step; auto.
Qed.

(** X12. [getAllMeals] decides on the truthiness of [search] and passes a
    truthy value on untouched: the filter is
    [{ $text: { $search: search } }] for every truthy [search] and [{}] for
    every falsy one.  A [search] that arrives as an array or an object is
    truthy, so it goes into [$search] as it is. *)
Theorem getAllMeals_filter_by_truthiness (model : Meal.Model)
    (req : AuthRequest) (w : world model) (u : User) :
  user req = Some u ->
  let search := prop "search" (query req) in
  let listed filter :=
    calls (snd (getAllMeals model req w))
    = calls w ++ [Meal.Find filter "createdBy" "name email"] in
  (ToBoolean search = true -> listed (VObj [("$text", VObj [("$search", search)])]))
  /\ (ToBoolean search = false -> listed (VObj []))
  /\ ((exists elems, search = VArr elems) \/ (exists props, search = VObj props) ->
      listed (VObj [("$text", VObj [("$search", search)])])).
Proof.
  intros Huser search listed. subst listed.
  rewrite (getAllMeals_reaches_store model req w u Huser). fold search.
  assert (Hcalls : forall filter,
             calls (snd (match Meal.find model filter "createdBy" "name email" (store w) with
                         | Ok meals =>
                             (Ok tt, called w (Meal.Find filter "createdBy" "name email")
                                       (store w) 200 (envelope_data meals))
                         | Throw _ =>
                             (Ok tt, called w (Meal.Find filter "createdBy" "name email")
                                       (store w) 500
                                       (envelope_error "Internal server error"
                                          "Failed to get meals"))
                         end))
             = calls w ++ [Meal.Find filter "createdBy" "name email"]).
  { intros filter. now destruct (Meal.find _ _ _ _ _). }
  split; [|split].
  - intros ->. apply Hcalls.
  - intros ->. apply Hcalls.
  - intros [[elems Hs] | [props Hs]]; rewrite Hs; apply Hcalls.
Qed.

(* ===================================================================== *)
(** ** The router *)
(* ===================================================================== *)


(** X13. Behind middlewares that leave the Meal store alone, a request
    makes the router call the store at most once, and only after
    [authenticate] and then [requireRole('admin')] have both let it
    through; the call is then the operation of the route that the method
    and path select, on the identifier taken from the path: [find] for GET
    and HEAD [/], [create] for POST [/], [findByIdAndUpdate] for PUT
    [/:id], [findByIdAndDelete] for DELETE [/:id].  A request that a
    middleware holds back, and a method and path without a route, never
    reach the store. *)
Theorem router_guards_the_store (rt : Runtime) (model : Meal.Model)
    (authenticate : Router.Middleware model)
    (requireRole : string -> Router.Middleware model)
    (inc : Router.Incoming) (w : world model) :
  store_free authenticate ->
  (forall role, store_free (requireRole role)) ->
  let w' := snd (Router.adminMealRoutes rt model authenticate requireRole inc w) in
  let untouched := calls w' = calls w /\ store w' = store w in
  (untouched
   \/ exists r1 w1 r2 w2 c,
        authenticate (Router.request inc) w = (Ok (Router.Next r1), w1)
        /\ requireRole "admin" r1 w1 = (Ok (Router.Next r2), w2)
        /\ calls w' = calls w ++ [c]
        /\ route_allows (Router.method inc) (Router.path inc) c)
  /\ (has_route (Router.method inc) (Router.path inc) = false -> untouched).
Proof.
  intros Hauth Hrole w' untouched. subst untouched w'.
  unfold Router.adminMealRoutes, bind.
  destruct (Hauth (Router.request inc) w) as [Hc1 Hs1].
  destruct (authenticate (Router.request inc) w) as [[[r1|]|e1] w1] eqn:Ha;
    simpl in Hc1, Hs1; [|split; [left|intros _]; simpl; split; congruence..].
  destruct (Hrole "admin" r1 w1) as [Hc2 Hs2].
  destruct (requireRole "admin" r1 w1) as [[[r2|]|e2] w2] eqn:Hr;
    simpl in Hc2, Hs2; [|split; [left|intros _]; simpl; split; congruence..].
  rewrite <- Hc1, <- Hc2, <- Hs1, <- Hs2.
  set (w3 := snd (Router.dispatch rt model (Router.method inc) (Router.path inc) r2 w2)).
  assert (Hgoal :
    ((calls w3 = calls w2 /\ store w3 = store w2)
     \/ exists c, calls w3 = calls w2 ++ [c]
                  /\ route_allows (Router.method inc) (Router.path inc) c)
    /\ (has_route (Router.method inc) (Router.path inc) = false ->
        calls w3 = calls w2 /\ store w3 = store w2)).
  { subst w3. unfold Router.dispatch.
    destruct (Router.method inc), (Router.path inc) as [|id [|id' rest]];
      try (split; [left|intros _]; split; reflexivity);
      (split; [|discriminate]);
      unfold bind at 1, ret;
      explore;
      first [ left; split; reflexivity
            | right; eexists; split; [reflexivity|simpl; auto] ]. }
  destruct Hgoal as [[Hquiet | (c & Hcalls & Hroute)] Hnone];
    (split; [|exact Hnone]); [left; exact Hquiet|].
  right. exists r1, w1, r2, w2, c. auto.
Qed.


(** X15. What [deleteMeal] sends is one of four fixed responses: nothing
    of the request, of the deleted document or of a store error ever
    appears in it. *)
Theorem deleteMeal_echoes_nothing (model : Meal.Model)
    (req : AuthRequest) (w : world model) :
  exists r,
    sent (snd (deleteMeal model req w)) = sent w ++ [r]
    /\ In r [{| status := 401; json := unauthorized |};
             {| status := 404; json := not_found |};
             {| status := 200; json := envelope_message "Meal deleted successfully" |};
             {| status := 500;
                json := envelope_error "Internal server error" "Failed to delete meal" |}].
Proof. one_answer tauto. Qed.

(* ===================================================================== *)
(** ** These statements at work on sample requests *)
(* ===================================================================== *)

Lemma Gate_authenticate_store_free (model : Meal.Model) :
  store_free (Gate.authenticate model).
Proof.
  intros r w. unfold Gate.authenticate.
  destruct (prop "token" (query r)); split; reflexivity.
Qed.

Lemma Gate_requireRole_store_free (model : Meal.Model) (role : string) :
  store_free (Gate.requireRole model role).
Proof.
  intros r w. unfold Gate.requireRole.
  destruct (user r) as [[i]|]; [|split; reflexivity].
  destruct i; try (split; reflexivity).
  destruct (String.eqb s role); split; reflexivity.
Qed.

Lemma createMeal_reaches_store_iff_witness :
  let req := Sample.request (Some Sample.admin) [] "" (VObj Sample.rice) in
  user req = Some Sample.admin
  /\ body req = VObj Sample.rice
  /\ create_accepts IntRuntime.rt Sample.rice
  /\ calls (snd (createMeal IntRuntime.rt Sample.store req (init Sample.store MemStore.empty)))
     = [Meal.Create (VObj (stamped Sample.rice Sample.admin))].
Proof.
  intros req. split; [reflexivity|]. split; [reflexivity|].
  destruct (createMeal_reaches_store_iff IntRuntime.rt Sample.store req
              (init Sample.store MemStore.empty) Sample.admin Sample.rice
              eq_refl eq_refl)
    as [[Hacc Hcalls] | [Hnot _]].
  - split; [exact Hacc|exact Hcalls].
  - exfalso. apply Hnot. split; [reflexivity|].
    repeat constructor.
Defined.

Lemma createMeal_lets_non_numbers_through_witness :
  let props := [("name", VStr "Rice"); ("calories", VNull); ("carbs", VNum NaN);
                ("protein", VBool true); ("fat", VNull); ("weightGrams", VNull)] in
  let req := Sample.request (Some Sample.admin) [] "" (VObj props) in
  user req = Some Sample.admin
  /\ body req = VObj props
  /\ ToBoolean (prop "name" props) = true
  /\ Forall (fun f => present_non_number (prop f props)) numeric_fields
  /\ calls (snd (createMeal IntRuntime.rt Sample.store req (init Sample.store MemStore.empty)))
     = [Meal.Create (VObj (stamped props Sample.admin))].
Proof.
  intros props req.
  assert (Hodd : Forall (fun f => present_non_number (prop f props)) numeric_fields).
  { repeat (apply List.Forall_cons || apply List.Forall_nil);
      first [ left; reflexivity
            | right; left; reflexivity
            | right; right; eexists; reflexivity ]. }
  split; [reflexivity|]. split; [reflexivity|]. split; [reflexivity|].
  split; [exact Hodd|].
  exact (createMeal_lets_non_numbers_through IntRuntime.rt Sample.store req
           (init Sample.store MemStore.empty) Sample.admin props
           eq_refl eq_refl eq_refl Hodd).
Defined.

Lemma bodies_that_are_not_objects_witness :
  let req := Sample.request (Some Sample.admin) [] "1" VUndefined in
  user req = Some Sample.admin
  /\ updateMeal IntRuntime.rt Sample.store req (init Sample.store Sample.with_rice)
     = (Ok tt,
        respond (init Sample.store Sample.with_rice) 500
          (VObj [("error", VStr "Internal server error");
                 ("message", VStr "Failed to update meal")])).
Proof.
  intros req. split; [reflexivity|].
  destruct (bodies_that_are_not_objects IntRuntime.rt Sample.store req
              (init Sample.store Sample.with_rice) Sample.admin eq_refl)
    as [Hnone _].
  destruct (Hnone (or_introl eq_refl)) as [_ Hupdate]. exact Hupdate.
Defined.

Lemma uncomparable_amount_is_500_witness :
  let props := [("calories", VObj [("toString", num 1)]); ("carbs", num (-1))] in
  let req := Sample.request (Some Sample.admin) [] "1" (VObj props) in
  user req = Some Sample.admin
  /\ body req = VObj props
  /\ updateMeal IntRuntime.rt Sample.store req (init Sample.store Sample.with_rice)
     = (Ok tt,
        respond (init Sample.store Sample.with_rice) 500
          (VObj [("error", VStr "Internal server error");
                 ("message", VStr "Failed to update meal")])).
Proof.
  intros props req. split; [reflexivity|]. split; [reflexivity|].
  destruct (uncomparable_amount_is_500 IntRuntime.rt Sample.store req
              (init Sample.store Sample.with_rice) Sample.admin props eq_refl eq_refl)
    as [Hupdate _].
  apply (Hupdate [] "calories" "Calories cannot be negative" (tl update_messages)
           (TypeError "Cannot convert object to primitive value") eq_refl).
  - constructor.
  - reflexivity.
Defined.

Lemma handlers_ignore_who_asks_witness :
  let req := Sample.request (Some Sample.admin) [] "1" (VObj []) in
  let req' := Sample.request (Some {| _id := VStr "someone-else" |})
                [("search", VStr "Rice")] "1" VNull in
  is_Some (user req)
  /\ is_Some (user req')
  /\ deleteMeal Sample.store req (init Sample.store Sample.with_rice)
     = deleteMeal Sample.store req' (init Sample.store Sample.with_rice).
Proof.
  intros req req'.
  assert (H : is_Some (user req)) by (eexists; reflexivity).
  assert (H' : is_Some (user req')) by (eexists; reflexivity).
  split; [exact H|]. split; [exact H'|].
  destruct (handlers_ignore_who_asks IntRuntime.rt Sample.store req req'
              (init Sample.store Sample.with_rice) H H')
    as (_ & _ & Hdelete).
  apply Hdelete. reflexivity.
Defined.

Lemma updateMeal_checks_only_amounts_witness :
  let props := [("name", VStr ""); ("fat", num 1)] in
  let props' := [("fat", num 1); ("createdBy", VStr "someone-else")] in
  let req := Sample.request (Some Sample.admin) [] "1" (VObj props) in
  let req' := Sample.request (Some Sample.admin) [] "1" (VObj props') in
  user req = Some Sample.admin
  /\ user req' = Some Sample.admin
  /\ body req = VObj props
  /\ body req' = VObj props'
  /\ Forall (fun f => prop f props = prop f props') numeric_fields
  /\ calls (snd (updateMeal IntRuntime.rt Sample.store req
                   (init Sample.store Sample.with_rice)))
     = [Meal.FindByIdAndUpdate (VStr "1") (VObj props) (VObj [("new", VBool true)])].
Proof.
  intros props props' req req'.
  assert (Hsame : Forall (fun f => prop f props = prop f props') numeric_fields)
    by (repeat constructor).
  repeat (split; [reflexivity || exact Hsame|]).
  destruct (updateMeal_checks_only_amounts IntRuntime.rt Sample.store req req'
              (init Sample.store Sample.with_rice) Sample.admin Sample.admin
              props props' eq_refl eq_refl eq_refl eq_refl Hsame)
    as [[Hnone _] | [Hcalls _]].
  - exfalso. revert Hnone. vm_compute. discriminate.
  - exact Hcalls.
Defined.

Lemma getAllMeals_filter_by_truthiness_witness :
  let req := Sample.request (Some Sample.admin) [("search", VArr [VStr "Rice"])] ""
               (VObj []) in
  user req = Some Sample.admin
  /\ calls (snd (getAllMeals Sample.store req (init Sample.store Sample.with_rice)))
     = [Meal.Find (VObj [("$text", VObj [("$search", VArr [VStr "Rice"])])])
          "createdBy" "name email"].
Proof.
  intros req. split; [reflexivity|].
  destruct (getAllMeals_filter_by_truthiness Sample.store req
              (init Sample.store Sample.with_rice) Sample.admin eq_refl)
    as (_ & _ & Hshape).
  apply Hshape. left. eexists. reflexivity.
Defined.

Lemma router_guards_the_store_witness :
  let inc := {| Router.method := Router.PUT; Router.path := [];
                Router.request :=
                  Sample.request None [("token", VStr "admin")] ""
                    (VObj [("calories", num 1)]) |} in
  let w := init Sample.store Sample.with_rice in
  store_free (Gate.authenticate Sample.store)
  /\ (forall role, store_free (Gate.requireRole Sample.store role))
  /\ calls (snd (Router.adminMealRoutes IntRuntime.rt Sample.store
                   (Gate.authenticate Sample.store) (Gate.requireRole Sample.store)
                   inc w)) = calls w
  /\ store (snd (Router.adminMealRoutes IntRuntime.rt Sample.store
                   (Gate.authenticate Sample.store) (Gate.requireRole Sample.store)
                   inc w)) = store w.
Proof.
  intros inc w.
  split; [apply Gate_authenticate_store_free|].
  split; [apply Gate_requireRole_store_free|].
  destruct (router_guards_the_store IntRuntime.rt Sample.store
              (Gate.authenticate Sample.store) (Gate.requireRole Sample.store) inc w
              (Gate_authenticate_store_free Sample.store)
              (Gate_requireRole_store_free Sample.store))
    as [_ Hnone].
  exact (Hnone eq_refl).
Defined.


(** X16. The range check of [createMeal] stops at the first negative
    amount: with nothing missing, an amount that is negative while those
    before it (in the order calories, carbs, protein, fat, weightGrams)
    are not is answered 400 without the amounts after it being compared
    at all, so whatever they are. *)
Theorem createMeal_stops_at_first_negative (rt : Runtime) (model : Meal.Model)
    (req : AuthRequest) (w : world model) (u : User)
    (props : list (string * value)) (pre post : list string) (f : string) :
  user req = Some u ->
  body req = VObj props ->
  ToBoolean (prop "name" props) = true ->
  Forall (fun g => prop g props <> VUndefined) numeric_fields ->
  numeric_fields = pre ++ f :: post ->
  Forall (fun g => not_negative rt (prop g props)) pre ->
  negative rt (prop f props) ->
  createMeal rt model req w =
    (Ok tt,
     respond w 400
       (VObj [("error", VStr "Validation error");
              ("message", VStr "Nutrition values/weight cannot be negative")])).
Proof.
  intros Huser Hbody Hname Hdef Hsplit Hpre Hneg.
  unfold not_negative, negative in *.
  run_handler. rewrite Huser, Hbody. simpl.
  rewrite Hname. simpl.
  split_fields Hdef.
  repeat match goal with
         | H : prop _ _ <> VUndefined |- _ =>
             rewrite <- is_undefined_true in H; apply not_true_is_false in H;
             rewrite H; clear H
         end.
  simpl. unfold numeric_fields in Hsplit.
  repeat (destruct pre as [|g pre];
          [ simplify_eq/=; now rewrite Hneg
          | let Hg := fresh "Hg" in
            apply Forall_cons in Hpre as [Hg Hpre]; simplify_eq/=;
            rewrite Hg; simpl ]).
Qed.

Lemma createMeal_stops_at_first_negative_witness :
  let props := [("name", VStr "Rice"); ("calories", num 0); ("carbs", num (-1));
                ("protein", VObj [("toString", num 1)]); ("fat", num 0);
                ("weightGrams", num 150)] in
  let req := Sample.request (Some Sample.admin) [] "" (VObj props) in
  user req = Some Sample.admin
  /\ body req = VObj props
  /\ ToBoolean (prop "name" props) = true
  /\ Forall (fun g => prop g props <> VUndefined) numeric_fields
  /\ numeric_fields = ["calories"] ++ "carbs" :: ["protein"; "fat"; "weightGrams"]
  /\ Forall (fun g => not_negative IntRuntime.rt (prop g props)) ["calories"]
  /\ negative IntRuntime.rt (prop "carbs" props)
  /\ createMeal IntRuntime.rt Sample.store req (init Sample.store MemStore.empty)
     = (Ok tt,
        respond (init Sample.store MemStore.empty) 400
          (VObj [("error", VStr "Validation error");
                 ("message", VStr "Nutrition values/weight cannot be negative")])).
Proof.
  intros props req.
  assert (Hdef : Forall (fun g => prop g props <> VUndefined) numeric_fields)
    by (repeat constructor; discriminate).
  assert (Hpre : Forall (fun g => not_negative IntRuntime.rt (prop g props)) ["calories"])
    by (repeat constructor).
  repeat (split; [reflexivity || exact Hdef || exact Hpre|]).
  exact (createMeal_stops_at_first_negative IntRuntime.rt Sample.store req
           (init Sample.store MemStore.empty) Sample.admin props
           ["calories"] ["protein"; "fat"; "weightGrams"] "carbs"
           eq_refl eq_refl eq_refl Hdef eq_refl Hpre eq_refl).
Defined.
